(** * Validation utilities of the template repository

    A shallow embedding of the two scripts under [validation/]:

    - [check_hardcoded_values.py] (class [HardcodedValuesChecker]): module
      [Checker];
    - [validate_configs.py] (class [ConfigValidator]): module [Validator].

    Conventions of the embedding.

    - A Python [str] is a [string]; the text is taken to be ASCII, so
      [str.lower] and [str.strip] are the ASCII ones.
    - A Python exception is a value of [exn]; code that can raise returns
      [exn + A], and methods that also append to the lists of the instance
      run in the monad [M] (state and exception).  A state change made
      before a raise stays, as in Python.
    - What the scripts get from outside (the files on disk, what
      [yaml.safe_load] returned, the regex engine behind [re.finditer]) is an
      input of the model.
    - [print] calls are left out: no property below is about the console. *)

From Stdlib Require Import List String Ascii ZArith Lia Bool Arith.
From Stdlib Require Import DecimalString.
Import ListNotations.
Local Open Scope list_scope.
Local Open Scope string_scope.
Set Warnings "-register-all".

(* ================================================================= *)
(** ** Python strings *)

Module PyStr.

(** [c.isspace()] on ASCII: tab to carriage return, the four separators
    0x1c to 0x1f, and the blank. *)
Definition is_space (c : ascii) : bool :=
  let n := nat_of_ascii c in
  (((9 <=? n) && (n <=? 13)) || ((28 <=? n) && (n <=? 31)) || (n =? 32))%nat.

(** The spaces of [int]: those of C's [isspace]. *)
Definition is_c_space (c : ascii) : bool :=
  let n := nat_of_ascii c in
  (((9 <=? n) && (n <=? 13)) || (n =? 32))%nat.

Section Strip.
Variable blank : ascii -> bool.

Fixpoint lstrip_with (s : string) : string :=
  match s with
  | String c s' => if blank c then lstrip_with s' else s
  | EmptyString => EmptyString
  end.

Fixpoint rstrip_with (s : string) : string :=
  match s with
  | String c s' =>
      match rstrip_with s' with
      | EmptyString => if blank c then EmptyString else String c EmptyString
      | r => String c r
      end
  | EmptyString => EmptyString
  end.

End Strip.

(** [s.strip()] *)
Definition strip (s : string) : string :=
  rstrip_with is_space (lstrip_with is_space s).

Definition lower_ascii (c : ascii) : ascii :=
  let n := nat_of_ascii c in
  if ((65 <=? n) && (n <=? 90))%nat then ascii_of_nat (n + 32) else c.

(** [s.lower()] *)
Fixpoint lower (s : string) : string :=
  match s with
  | String c s' => String (lower_ascii c) (lower s')
  | EmptyString => EmptyString
  end.

(** [s.startswith(p)] *)
Fixpoint startswith (p s : string) : bool :=
  match p, s with
  | EmptyString, _ => true
  | String a p', String b s' => Ascii.eqb a b && startswith p' s'
  | String _ _, EmptyString => false
  end.

(** [needle in hay] *)
Fixpoint str_in (needle hay : string) : bool :=
  startswith needle hay ||
  match hay with
  | String _ hay' => str_in needle hay'
  | EmptyString => false
  end.

(** [hay.find(needle)]: the first index, or -1. *)
Fixpoint find (needle hay : string) : Z :=
  if startswith needle hay then 0%Z
  else match hay with
       | String _ hay' =>
           let r := find needle hay' in
           if (r <? 0)%Z then (-1)%Z else (r + 1)%Z
       | EmptyString => (-1)%Z
       end.

Fixpoint drop (n : nat) (s : string) : string :=
  match n, s with
  | S n', String _ s' => drop n' s'
  | _, _ => s
  end.

(** [s[i:]], with Python's reading of a negative index. *)
Definition slice_from (i : Z) (s : string) : string :=
  if (i <? 0)%Z
  then drop (Z.to_nat (Z.max 0 (Z.of_nat (String.length s) + i))) s
  else drop (Z.to_nat i) s.

(** [s.split(sep)] for a separator of one character: never empty. *)
Fixpoint split (sep : ascii) (s : string) : list string :=
  match s with
  | EmptyString => [EmptyString]
  | String c s' =>
      if Ascii.eqb c sep then EmptyString :: split sep s'
      else match split sep s' with
           | h :: t => String c h :: t
           | [] => [String c EmptyString]
           end
  end.

(** [sep.join(l)] *)
Fixpoint join (sep : string) (l : list string) : string :=
  match l with
  | [] => ""
  | [x] => x
  | x :: l' => x ++ sep ++ join sep l'
  end.

(** [str(n)] for an [int]. *)
Definition of_Z (z : Z) : string := NilZero.string_of_int (Z.to_int z).
Definition of_nat (n : nat) : string := NilZero.string_of_uint (Nat.to_uint n).

End PyStr.

(* ================================================================= *)
(** ** Exceptions and the monad of a method *)

Module Py.

Inductive exn_class :=
| FileNotFoundError | IsADirectoryError | PermissionError | OSError
| UnicodeDecodeError | ValueError | AttributeError | TypeError
| YAMLError | ReError | OtherException.

(** An exception: its class and [str(e)]. *)
Inductive exn := Exn (cls : exn_class) (msg : string).

Definition exn_cls (e : exn) : exn_class := let 'Exn c _ := e in c.
Definition exn_str (e : exn) : string := let 'Exn _ m := e in m.

(** [isinstance(e, OSError)]; [IOError] is the same class. *)
Definition is_OSError (c : exn_class) : bool :=
  match c with
  | FileNotFoundError | IsADirectoryError | PermissionError | OSError => true
  | _ => false
  end.

(** [isinstance(e, ValueError)] *)
Definition is_ValueError (c : exn_class) : bool :=
  match c with
  | ValueError | UnicodeDecodeError => true
  | _ => false
  end.

(** A method of an object whose fields are [S]: it ends normally with a
    result or raises, and leaves the fields in some state either way. *)
Definition M (S A : Type) : Type := S -> (exn + A) * S.

Definition ret {S A} (a : A) : M S A := fun s => (inr a, s).
Definition raise {S A} (e : exn) : M S A := fun s => (inl e, s).
Definition bind {S A B} (m : M S A) (k : A -> M S B) : M S B :=
  fun s => match m s with
           | (inr a, s') => k a s'
           | (inl e, s') => (inl e, s')
           end.
Definition lift {S A} (r : exn + A) : M S A := fun s => (r, s).
Definition modify {S} (f : S -> S) : M S unit := fun s => (inr tt, f s).
Definition gets {S A} (f : S -> A) : M S A := fun s => (inr (f s), s).

(** [for x in l: body x] *)
Fixpoint for_each {S A} (l : list A) (body : A -> M S unit) : M S unit :=
  match l with
  | [] => ret tt
  | x :: l' => bind (body x) (fun _ => for_each l' body)
  end.

Definition when {S} (b : bool) (m : M S unit) : M S unit :=
  if b then m else ret tt.

End Py.

Declare Scope py_scope.
Delimit Scope py_scope with py.
Notation "x <- m ;; k" := (Py.bind m (fun x => k))
  (at level 61, m at next level, right associativity) : py_scope.
Notation "m ;; k" := (Py.bind m (fun _ => k))
  (at level 61, right associativity) : py_scope.

(* ================================================================= *)
(** ** check_hardcoded_values.py *)

Module Checker.
Import PyStr Py.
Local Open Scope py_scope.

(** A rule: [(pattern, description, severity)]. *)
Definition rule : Type := string * string * string.

(** An entry of [self.issues]: a dict with the keys [file], [line],
    [issue], [severity] and, for a match, [context]. *)
Record issue := {
  i_file : string;
  i_line : string;
  i_issue : string;
  i_severity : string;
  i_context : option string
}.

(** The fields of a [HardcodedValuesChecker]. *)
Record checker := {
  template_dir : string;
  issues : list issue;
  checked_files : nat;
  hardcoded_patterns : list rule
}.

Definition append_issue (i : issue) : M checker unit :=
  modify (fun c => {| template_dir := template_dir c;
                      issues := issues c ++ [i];
                      checked_files := checked_files c;
                      hardcoded_patterns := hardcoded_patterns c |}).

Definition set_checked_files (n : nat) : M checker unit :=
  modify (fun c => {| template_dir := template_dir c;
                      issues := issues c;
                      checked_files := n;
                      hardcoded_patterns := hardcoded_patterns c |}).

(** *** The rules file *)

(** What [open(self.patterns_file)] and the iteration over its lines do:
    the lines that come out, and the exception that ends the reading, if
    any ([FileNotFoundError] from [open], a decoding error part way). *)
Record patterns_source := {
  ps_lines : list string;
  ps_raises : option exn
}.

Definition default_patterns : list rule :=
  [ ("\b(?:Proto|proto)\b", "project name", "warning");
    ("\b(?:nazh|naz-hage)\b", "organization/user name", "warning") ].

(** One turn of the loop over the lines: the rules it appends. *)
Definition parse_line (line : string) : list rule :=
  let line := strip line in
  if (line =? "")%string || startswith "#" line then []
  else
    match split "|" line with
    | [pattern; description; severity] =>
        [(strip pattern, strip description, strip severity)]
    | _ => []
    end.

(** The body of the [try]. *)
Definition read_patterns (src : patterns_source) : exn + list rule :=
  let patterns := flat_map parse_line (ps_lines src) in
  match ps_raises src with
  | Some e => inl e
  | None => inr patterns
  end.

Definition _load_patterns (src : patterns_source) : exn + list rule :=
  match read_patterns src with
  | inr patterns => inr patterns
  | inl (Exn FileNotFoundError _) => inr default_patterns
  | inl _ => inr default_patterns
  end.

Definition __init__ (dir : string) (src : patterns_source) : exn + checker :=
  match _load_patterns src with
  | inr patterns =>
      inr {| template_dir := dir; issues := []; checked_files := 0;
             hardcoded_patterns := patterns |}
  | inl e => inl e
  end.

(** *** The files under the template directory *)

(** What reading a file as UTF-8 text gives. *)
Inductive read_result :=
| Content (text : string)
| ReadRaises (e : exn).

(** What is at a path: a file or a directory with its named entries, in
    the order [scandir] lists them. *)
Inductive fsnode :=
| FileNode (r : read_result)
| DirNode (entries : list (string * fsnode)).

(** A [Path] as its components; [str(path)] joins them. *)
Definition path : Type := list string.
Definition path_str (p : path) : string := join "/" p.

(** [fnmatch] of a name against a pattern in which [*] and [?] are the
    only wildcards (bracket classes are not modelled; the pattern of the
    scanner has none).  Every other character, a brace or a comma too,
    stands for itself: [pathlib] expands no braces. *)
Fixpoint fnmatch (pat : string) : string -> bool :=
  match pat with
  | EmptyString => fun name => (name =? "")%string
  | String c pat' =>
      if Ascii.eqb c "*" then
        fix star (name : string) : bool :=
          fnmatch pat' name ||
          match name with
          | String _ name' => star name'
          | EmptyString => false
          end
      else if Ascii.eqb c "?" then
        fun name => match name with
                    | String _ name' => fnmatch pat' name'
                    | EmptyString => false
                    end
      else
        fun name => match name with
                    | String d name' => Ascii.eqb d c && fnmatch pat' name'
                    | EmptyString => false
                    end
  end.

(** [dir.glob("**/" + pat)]: the entries named like [pat] in [dir] and in
    every directory below it, a directory before its subdirectories. *)
Fixpoint rglob (pat : string) (dir : path) (node : fsnode)
  : list (path * fsnode) :=
  match node with
  | FileNode _ => []
  | DirNode entries =>
      flat_map (fun e => if fnmatch pat (fst e)
                         then [((dir ++ [fst e])%list, snd e)] else []) entries
      ++ flat_map (fun e => rglob pat (dir ++ [fst e])%list (snd e)) entries
  end.

(** [Path.glob] for the patterns of the shape [**/name-pattern]. *)
Definition glob (dir : path) (node : fsnode) (pattern : string)
  : list (path * fsnode) :=
  match split "/" pattern with
  | [ "**"; pat ] => rglob pat dir node
  | _ => []
  end.

(** [open(file_path, 'r', encoding='utf-8')] and [f.read()] *)
Definition read_text (p : path) (node : fsnode) : exn + string :=
  match node with
  | FileNode (Content text) => inr text
  | FileNode (ReadRaises e) => inl e
  | DirNode _ =>
      inl (Exn IsADirectoryError
             ("[Errno 21] Is a directory: '" ++ path_str p ++ "'"))
  end.

(** *** The scan *)

(** A match object: [match.start()] and [match.group()]. *)
Record rmatch := { m_start : nat; m_group : string }.

Definition placeholders : list string :=
  ["[PROJECT_NAME]"; "[ORG_NAME]"; "[TOOL_COMMAND]"].

Definition example_indicators : list string :=
  ["example"; "e.g."; "for instance"; "such as"; "like"; "sample"; "demo";
   "test"; "placeholder"; "your-"; "my-"; "company-"; "org-"].

Definition _is_in_example_context (line : string) (match_pos : nat) : bool :=
  let line_lower := lower line in
  if existsb (fun indicator => str_in indicator line_lower) example_indicators
  then true
  else if str_in "#" line &&
          existsb (fun indicator =>
                     str_in indicator (slice_from (find "#" line) line_lower))
                  example_indicators
  then true
  else false.

Definition dquote : string := String (ascii_of_nat 34) EmptyString.
Definition newline : ascii := ascii_of_nat 10.

(** The dict appended for a match. *)
Definition match_issue (file_path : path) (line_num : nat) (line : string)
    (description severity : string) (m : rmatch) : issue :=
  {| i_file := path_str file_path;
     i_line := of_nat line_num;
     i_issue := "Potential hardcoded " ++ description ++ ": "
                ++ dquote ++ m_group m ++ dquote;
     i_severity := severity;
     i_context := Some (strip line) |}.

(** [enumerate(lines, start)] *)
Fixpoint enumerate {A} (start : nat) (l : list A) : list (nat * A) :=
  match l with
  | [] => []
  | x :: l' => (start, x) :: enumerate (S start) l'
  end.

Section Scan.

(** [re.finditer(pattern, line, re.IGNORECASE)]: the matches from left to
    right, or [re.error] for a pattern that does not compile. *)
Variable finditer : string -> string -> exn + list rmatch.

(** The loop over the matches of one rule. *)
Definition check_matches (file_path : path) (line_num : nat) (line : string)
    (description severity : string) (matches : list rmatch)
  : M checker unit :=
  for_each matches (fun m =>
    if _is_in_example_context line (m_start m) then ret tt
    else append_issue (match_issue file_path line_num line
                                   description severity m)).

Definition _check_line (file_path : path) (line_num : nat) (line : string)
  : M checker unit :=
  if existsb (fun placeholder => str_in placeholder line) placeholders
  then ret tt
  else
    patterns <- gets hardcoded_patterns ;;
    for_each patterns (fun r =>
      let '(pattern, description, severity) := r in
      matches <- lift (finditer pattern line) ;;
      check_matches file_path line_num line description severity matches).

Definition _check_file (file_path : path) (node : fsnode) : M checker unit :=
  match read_text file_path node with
  | inl e =>
      if match exn_cls e with UnicodeDecodeError => true | c => is_OSError c end
      then append_issue {| i_file := path_str file_path;
                           i_line := "1";
                           i_issue := "Could not read file: " ++ exn_str e;
                           i_severity := "error";
                           i_context := None |}
      else raise e
  | inr content =>
      let lines := split newline content in
      for_each (enumerate 1 lines) (fun nl =>
        _check_line file_path (fst nl) (snd nl))
  end.

(** [fs] is what is at [self.template_dir]; [None] when nothing is. *)
Definition check_all_files (fs : option fsnode) : M checker bool :=
  match fs with
  | None => ret false
  | Some tree =>
      dir <- gets template_dir ;;
      let pattern := "**/*.{md,yaml,yml}" in
      let files := glob [dir] tree pattern in
      for_each files (fun f => _check_file (fst f) (snd f)) ;;
      set_checked_files (List.length files) ;;
      found <- gets issues ;;
      ret (List.length found =? 0)%nat
  end.

(** [main]: the exit status, or the exception that ends the process. *)
Definition main (dir : string) (src : patterns_source) (fs : option fsnode)
  : exn + Z :=
  match __init__ dir src with
  | inl e => inl e
  | inr c =>
      match check_all_files fs c with
      | (inl e, _) => inl e
      | (inr true, _) => inr 0%Z
      | (inr false, c') =>
          let errors :=
            List.length (filter (fun i => (i_severity i =? "error")%string)
                           (issues c')) in
          if (0 <? errors)%nat then inr 1%Z else inr 0%Z
      end
  end.

End Scan.

(** [s[:n]] *)
Fixpoint take (n : nat) (s : string) : string :=
  match n, s with
  | S n', String c s' => String c (take n' s')
  | _, _ => EmptyString
  end.

(** The engine on a pattern made of letters and digits only: the
    occurrences of the pattern in the line, case ignored, from left to
    right and without overlap. *)
Fixpoint scan_literal (pat : string) (skip pos : nat) (line : string)
  : list rmatch :=
  match line with
  | EmptyString => []
  | String _ rest =>
      match skip with
      | S k => scan_literal pat k (S pos) rest
      | O =>
          if startswith (lower pat) (lower line)
          then {| m_start := pos; m_group := take (String.length pat) line |}
               :: scan_literal pat (String.length pat - 1) (S pos) rest
          else scan_literal pat 0 (S pos) rest
      end
  end.

Definition literal_finditer (pattern line : string) : exn + list rmatch :=
  inr (scan_literal pattern 0 0 line).

End Checker.

(* ================================================================= *)
(** ** validate_configs.py *)

Module Validator.
Import PyStr Py.
Local Open Scope py_scope.

(** *** The parsed document *)

(** What [yaml.safe_load] returns, for a document made of mappings with
    string keys, sequences, strings, integers, booleans and nulls (floats
    and dates are left out).  A mapping is its items in insertion order,
    with distinct keys. *)
Inductive value :=
| VNone
| VBool (b : bool)
| VInt (z : Z)
| VStr (s : string)
| VList (elems : list value)
| VDict (items : list (string * value)).

(** [bool(v)] *)
Definition truthy (v : value) : bool :=
  match v with
  | VNone => false
  | VBool b => b
  | VInt z => negb (z =? 0)%Z
  | VStr s => negb (s =? "")%string
  | VList l => match l with [] => false | _ => true end
  | VDict d => match d with [] => false | _ => true end
  end.

(** [type(v).__name__] *)
Definition type_name (v : value) : string :=
  match v with
  | VNone => "NoneType"
  | VBool _ => "bool"
  | VInt _ => "int"
  | VStr _ => "str"
  | VList _ => "list"
  | VDict _ => "dict"
  end.

(** [v is True] *)
Definition is_True (v : value) : bool :=
  match v with VBool true => true | _ => false end.

(** [v is None] *)
Definition is_None (v : value) : bool :=
  match v with VNone => true | _ => false end.

(** [v == s] for a string [s], and [v in l] for a list of strings. *)
Definition eq_str (v : value) (s : string) : bool :=
  match v with VStr t => (t =? s)%string | _ => false end.
Definition in_strs (v : value) (l : list string) : bool := existsb (eq_str v) l.

(** [repr(s)] of a string: between apostrophes, or between double quotes
    when it holds an apostrophe and no double quote. *)
Definition hex_digit (n : nat) : ascii :=
  if (n <? 10)%nat then ascii_of_nat (48 + n) else ascii_of_nat (87 + n).

Definition escape_char (quote c : ascii) : string :=
  let n := nat_of_ascii c in
  if Ascii.eqb c quote || Ascii.eqb c "\" then String "\" (String c "")
  else if (n =? 9)%nat then "\t"
  else if (n =? 10)%nat then "\n"
  else if (n =? 13)%nat then "\r"
  else if (n <? 32)%nat || (n =? 127)%nat
  then "\x" ++ String (hex_digit (n / 16)) (String (hex_digit (n mod 16)) "")
  else String c "".

Fixpoint escape (quote : ascii) (s : string) : string :=
  match s with
  | String c s' => escape_char quote c ++ escape quote s'
  | EmptyString => EmptyString
  end.

Definition repr_str (s : string) : string :=
  let dq := ascii_of_nat 34 in
  let quote := if str_in "'" s && negb (str_in (String dq "") s)
               then dq else "'"%char in
  String quote (escape quote s) ++ String quote "".

(** [repr(v)] and [str(v)] *)
Fixpoint py_repr (v : value) : string :=
  match v with
  | VNone => "None"
  | VBool true => "True"
  | VBool false => "False"
  | VInt z => of_Z z
  | VStr s => repr_str s
  | VList l => "[" ++ join ", " (map py_repr l) ++ "]"
  | VDict d =>
      "{" ++ join ", " (map (fun kv => repr_str (fst kv) ++ ": "
                                       ++ py_repr (snd kv)) d) ++ "}"
  end.

Definition py_str (v : value) : string :=
  match v with
  | VStr s => s
  | _ => py_repr v
  end.

(** [d[key]] when the key is there *)
Fixpoint lookup (key : string) (d : list (string * value)) : option value :=
  match d with
  | [] => None
  | (k, v) :: d' => if (k =? key)%string then Some v else lookup key d'
  end.

(** *** Attribute access on a value of any type *)

Definition no_attribute (v : value) (name : string) : exn :=
  Exn AttributeError
      ("'" ++ type_name v ++ "' object has no attribute '" ++ name ++ "'").

(** [v.get(key, default)] *)
Definition get (v : value) (key : string) (default : value) : exn + value :=
  match v with
  | VDict d => inr match lookup key d with Some x => x | None => default end
  | _ => inl (no_attribute v "get")
  end.

(** [v.items()] and [v.values()] *)
Definition items_of (v : value) : exn + list (string * value) :=
  match v with
  | VDict d => inr d
  | _ => inl (no_attribute v "items")
  end.

Definition values_of (v : value) : exn + list value :=
  match v with
  | VDict d => inr (map snd d)
  | _ => inl (no_attribute v "values")
  end.

(** [v.lower()] *)
Definition lower_of (v : value) : exn + string :=
  match v with
  | VStr s => inr (lower s)
  | _ => inl (no_attribute v "lower")
  end.

(** [v.split('.')] *)
Definition split_of (v : value) (sep : ascii) : exn + list string :=
  match v with
  | VStr s => inr (split sep s)
  | _ => inl (no_attribute v "split")
  end.

(** [v.startswith((p1, p2, ...))] *)
Definition startswith_of (v : value) (prefixes : list string) : exn + bool :=
  match v with
  | VStr s => inr (existsb (fun p => startswith p s) prefixes)
  | _ => inl (no_attribute v "startswith")
  end.

(** [int(s)] for a string: C spaces around, a sign, then digits that
    single underscores may separate.  (The length limit of recent
    interpreters on the number of digits is not modelled.) *)
Definition is_digit (c : ascii) : bool :=
  let n := nat_of_ascii c in ((48 <=? n) && (n <=? 57))%nat.

Fixpoint digits (acc : Z) (after_digit : bool) (s : string) : option Z :=
  match s with
  | EmptyString => if after_digit then Some acc else None
  | String c s' =>
      if is_digit c
      then digits (acc * 10 + Z.of_nat (nat_of_ascii c - 48)) true s'
      else if Ascii.eqb c "_" && after_digit then digits acc false s'
      else None
  end.

Definition py_int (s : string) : exn + Z :=
  let r := match rstrip_with is_c_space (lstrip_with is_c_space s) with
           | String "-" t => option_map Z.opp (digits 0 false t)
           | String "+" t => digits 0 false t
           | t => digits 0 false t
           end in
  match r with
  | Some z => inr z
  | None => inl (Exn ValueError
                   ("invalid literal for int() with base 10: " ++ repr_str s))
  end.

(** [major, minor = map(int, parts)] for [parts] of at most two strings:
    [map] is lazy, so the first conversion runs before the count is known
    to be short. *)
Definition unpack_two_ints (parts : list string) : exn + (Z * Z) :=
  match parts with
  | [] => inl (Exn ValueError "not enough values to unpack (expected 2, got 0)")
  | [p] =>
      match py_int p with
      | inl e => inl e
      | inr _ =>
          inl (Exn ValueError "not enough values to unpack (expected 2, got 1)")
      end
  | p :: q :: _ =>
      match py_int p with
      | inl e => inl e
      | inr major =>
          match py_int q with
          | inl e => inl e
          | inr minor => inr (major, minor)
          end
      end
  end.

(** *** The validator *)

(** The fields of a [ConfigValidator]. *)
Record validator := {
  config_path : string;
  errors : list string;
  warnings : list string;
  config : value
}.

Definition __init__ (path : string) : validator :=
  {| config_path := path; errors := []; warnings := []; config := VDict [] |}.

Definition add_error (msg : string) (st : validator) : validator :=
  {| config_path := config_path st; errors := errors st ++ [msg];
     warnings := warnings st; config := config st |}.

Definition add_warning (msg : string) (st : validator) : validator :=
  {| config_path := config_path st; errors := errors st;
     warnings := warnings st ++ [msg]; config := config st |}.

Definition set_config (v : value) (st : validator) : validator :=
  {| config_path := config_path st; errors := errors st;
     warnings := warnings st; config := v |}.

(** [self.errors.append(msg)] and [self.warnings.append(msg)] *)
Definition error (msg : string) : M validator unit := modify (add_error msg).
Definition warn (msg : string) : M validator unit := modify (add_warning msg).

(** What is at [self.config_path]: nothing; a file whose opening, reading
    or parsing raises; a file that [yaml.safe_load] turns into [doc]. *)
Inductive config_file :=
| Missing
| Raises (e : exn)
| Loaded (doc : value).

Definition _load_config (f : config_file) : M validator unit :=
  match f with
  | Missing =>
      path <- gets config_path ;;
      raise (Exn FileNotFoundError ("Configuration file not found: " ++ path))
  | Raises e =>
      match exn_cls e with
      | YAMLError => raise (Exn ValueError ("Invalid YAML syntax: " ++ exn_str e))
      | _ => raise e
      end
  | Loaded doc =>
      modify (set_config (if truthy doc then doc else VDict []))
  end.

(** The loop of [_get_nested_value] over the keys. *)
Fixpoint walk (cur : value) (keys : list string) : value :=
  match keys with
  | [] => cur
  | key :: keys' =>
      match cur with
      | VDict d =>
          match lookup key d with
          | Some v => walk v keys'
          | None => VNone
          end
      | _ => VNone
      end
  end.

Definition _get_nested_value (self_config : value) (field_path : string)
  : value :=
  let keys := split "." field_path in
  walk self_config keys.

Definition _validate_required_fields : M validator unit :=
  let required_fields :=
    ["project.name"; "project.organization"; "platforms"; "language"] in
  for_each required_fields (fun field_path =>
    cfg <- gets config ;;
    when (negb (truthy (_get_nested_value cfg field_path)))
         (error ("Required field missing: " ++ field_path))).

Definition _validate_data_types : M validator unit :=
  let string_fields :=
    ["project.name"; "project.organization"; "project.description";
     "language"; "framework"; "tools.cli"; "tools.test_runner";
     "tools.linter"] in
  for_each string_fields (fun field_path =>
    cfg <- gets config ;;
    let value := _get_nested_value cfg field_path in
    when (negb (is_None value) &&
          negb match value with VStr _ => true | _ => false end)
         (error ("Field " ++ field_path ++ " must be a string, got <class '"
                 ++ type_name value ++ "'>"))) ;;
  let boolean_fields :=
    ["platforms.azure_devops"; "platforms.github"; "platforms.jira"] in
  for_each boolean_fields (fun field_path =>
    cfg <- gets config ;;
    let value := _get_nested_value cfg field_path in
    when (negb (is_None value) &&
          negb match value with VBool _ => true | _ => false end)
         (error ("Field " ++ field_path ++ " must be a boolean, got <class '"
                 ++ type_name value ++ "'>"))).

(** [self.config.get(key, default)] *)
Definition config_get (key : string) (default : value) : M validator value :=
  cfg <- gets config ;;
  lift (get cfg key default).

Definition _validate_azure_devops_config : M validator unit :=
  azure_config <- config_get "azure_devops" (VDict []) ;;
  when (negb (truthy azure_config))
       (warn "Azure DevOps is enabled but no specific configuration provided").

Definition _validate_github_config : M validator unit :=
  github_config <- config_get "github" (VDict []) ;;
  when (negb (truthy github_config))
       (warn "GitHub is enabled but no specific configuration provided").

Definition _validate_jira_config : M validator unit :=
  jira_config <- config_get "jira" (VDict []) ;;
  when (negb (truthy jira_config))
       (warn "Jira is enabled but no specific configuration provided").

Definition _validate_platform_config : M validator unit :=
  platforms <- config_get "platforms" (VDict []) ;;
  items <- lift (items_of platforms) ;;
  let enabled_platforms :=
    map fst (filter (fun kv => is_True (snd kv)) items) in
  when (match enabled_platforms with [] => true | _ => false end)
       (warn "No platforms are enabled. Consider enabling at least one platform.") ;;
  azure <- lift (get platforms "azure_devops" VNone) ;;
  when (truthy azure) _validate_azure_devops_config ;;
  github <- lift (get platforms "github" VNone) ;;
  when (truthy github) _validate_github_config ;;
  jira <- lift (get platforms "jira" VNone) ;;
  when (truthy jira) _validate_jira_config.

(** The [try] of [_is_valid_python_version], then the method with its
    [except (ValueError, AttributeError)]. *)
Definition python_version_body (version : value) : exn + bool :=
  match split_of version "." with
  | inl e => inl e
  | inr parts =>
      match unpack_two_ints (firstn 2 parts) with
      | inl e => inl e
      | inr (major, minor) => inr ((major =? 3)%Z && (8 <=? minor)%Z)
      end
  end.

Definition catch_value_or_attribute (body : exn + bool) : exn + bool :=
  match body with
  | inr b => inr b
  | inl e =>
      if is_ValueError (exn_cls e) ||
         match exn_cls e with AttributeError => true | _ => false end
      then inr false
      else inl e
  end.

Definition _is_valid_python_version (version : value) : exn + bool :=
  catch_value_or_attribute (python_version_body version).

Definition _is_valid_java_version (version : value) : exn + bool :=
  let lts_versions := ["8"; "11"; "17"; "21"] in
  if in_strs version lts_versions then inr true
  else startswith_of version ["8."; "11."; "17."; "21."].

Definition dotnet_version_body (version : value) : exn + bool :=
  match split_of version "." with
  | inl e => inl e
  | inr parts =>
      match unpack_two_ints (firstn 2 parts) with
      | inl e => inl e
      | inr (major, minor) =>
          inr (((major =? 6)%Z && (0 <=? minor)%Z)
               || ((major =? 7)%Z && (0 <=? minor)%Z)
               || ((major =? 8)%Z && (0 <=? minor)%Z))
      end
  end.

Definition _is_valid_dotnet_version (version : value) : exn + bool :=
  catch_value_or_attribute (dotnet_version_body version).

(** In the three methods below [cfg['version']] is read after
    [cfg.get('version')] was found truthy: it is the same value. *)
Definition _validate_python_config : M validator unit :=
  python_config <- config_get "python" (VDict []) ;;
  version <- lift (get python_config "version" VNone) ;;
  when (truthy version)
       (valid <- lift (_is_valid_python_version version) ;;
        when (negb valid)
             (warn ("Python version '" ++ py_str version
                    ++ "' may not be supported"))).

Definition _validate_javascript_config : M validator unit :=
  js_config <- config_get "javascript" (VDict []) ;;
  runtime <- lift (get js_config "runtime" VNone) ;;
  when (negb (in_strs runtime ["node"; "bun"] || is_None runtime))
       (warn "JavaScript runtime should be 'node' or 'bun'").

Definition _validate_java_config : M validator unit :=
  java_config <- config_get "java" (VDict []) ;;
  version <- lift (get java_config "version" VNone) ;;
  when (truthy version)
       (valid <- lift (_is_valid_java_version version) ;;
        when (negb valid)
             (warn ("Java version '" ++ py_str version ++ "' may not be LTS"))).

Definition _validate_dotnet_config : M validator unit :=
  dotnet_config <- config_get "dotnet" (VDict []) ;;
  version <- lift (get dotnet_config "version" VNone) ;;
  when (truthy version)
       (valid <- lift (_is_valid_dotnet_version version) ;;
        when (negb valid)
             (warn (".NET version '" ++ py_str version
                    ++ "' may not be supported"))).

(** [self.config.get(key, '').lower()] *)
Definition config_get_lower (key : string) : M validator string :=
  v <- config_get key (VStr "") ;;
  lift (lower_of v).

Definition mem (s : string) (l : list string) : bool :=
  existsb (String.eqb s) l.

Definition _validate_language_config : M validator unit :=
  language <- config_get_lower "language" ;;
  framework <- config_get_lower "framework" ;;
  let supported_languages := ["python"; "javascript"; "java"; "dotnet"] in
  when (negb (language =? "") && negb (mem language supported_languages))
       (warn ("Language '" ++ language
              ++ "' is not in the list of well-supported languages: "
              ++ py_str (VList (map VStr supported_languages)))) ;;
  if language =? "python" then _validate_python_config
  else if language =? "javascript" then _validate_javascript_config
  else if language =? "java" then _validate_java_config
  else if language =? "dotnet" then _validate_dotnet_config
  else ret tt.

Definition _validate_tool_config : M validator unit :=
  tools <- config_get "tools" (VDict []) ;;
  cli <- lift (get tools "cli" (VStr "")) ;;
  cli_tool <- lift (lower_of cli) ;;
  when (negb (cli_tool =? "saz"))
       (warn "Consider using 'saz' as the primary CLI tool for consistency") ;;
  language <- config_get_lower "language" ;;
  runner <- lift (get tools "test_runner" (VStr "")) ;;
  test_runner <- lift (lower_of runner) ;;
  when ((language =? "python")
        && negb (mem test_runner ["pytest"; "unittest"; ""]))
       (warn "For Python, consider using 'pytest' or 'unittest' as test runner") ;;
  when ((language =? "javascript")
        && negb (mem test_runner ["jest"; "mocha"; "jasmine"; ""]))
       (warn "For JavaScript, consider using 'jest', 'mocha', or 'jasmine' as test runner") ;;
  when ((language =? "java")
        && negb (mem test_runner ["junit"; "testng"; ""]))
       (warn "For Java, consider using 'junit' or 'testng' as test runner") ;;
  when ((language =? "dotnet")
        && negb (mem test_runner ["xunit"; "nunit"; "mstest"; ""]))
       (warn "For .NET, consider using 'xunit', 'nunit', or 'mstest' as test runner").

Definition _validate_consistency : M validator unit :=
  platforms <- config_get "platforms" (VDict []) ;;
  values <- lift (values_of platforms) ;;
  let enabled_count := List.length (filter is_True values) in
  when (1 <? enabled_count)%nat
       (warn ("Multiple platforms enabled (" ++ of_nat enabled_count
              ++ "). Ensure SAZ is configured correctly for all platforms.")).

(** The body of the [try] of [validate], before the [return]. *)
Definition run_checks (f : config_file) : M validator unit :=
  _load_config f ;;
  _validate_required_fields ;;
  _validate_data_types ;;
  _validate_platform_config ;;
  _validate_language_config ;;
  _validate_tool_config ;;
  _validate_consistency.

(** [validate]: the boolean it returns and the fields afterwards. *)
Definition validate (f : config_file) (st : validator) : bool * validator :=
  match run_checks f st with
  | (inr _, st') => ((List.length (errors st') =? 0)%nat, st')
  | (inl e, st') =>
      (false, add_error ("Failed to validate config: " ++ exn_str e) st')
  end.

(** The paths that [main] tries when nothing is at the given one. *)
Definition possible_paths : list string :=
  [".github/project-config.yaml"; "project-config.yaml";
   ".github/project-config.yml"; "project-config.yml"].

(** [Path(p).exists()] *)
Definition path_exists (disk : string -> config_file) (p : string) : bool :=
  match disk p with
  | Missing => false
  | _ => true
  end.

(** [main].  [disk] tells what is at each path, and [config_path] is the
    argument after parsing (its default is the first of the paths above).
    The result is the exit status. *)
Definition main (disk : string -> config_file) (config_path : string) : Z :=
  let chosen :=
    if path_exists disk config_path then Some config_path
    else List.find (path_exists disk) possible_paths in
  match chosen with
  | None => 1%Z
  | Some p =>
      let validator := __init__ p in
      if fst (validate (disk p) validator) then 0%Z else 1%Z
  end.

End Validator.

(* ================================================================= *)
(** ** Notions used to state the properties *)

Module Spec.
Import PyStr Py.

(** [needle] occurs in [hay]. *)
Definition occurs (needle hay : string) : Prop :=
  exists pre suf, hay = pre ++ needle ++ suf.

(** [s] has [n] occurrences of the character [c]. *)
Fixpoint count_char (c : ascii) (s : string) : nat :=
  match s with
  | String d s' => (if Ascii.eqb d c then 1 else 0) + count_char c s'
  | EmptyString => 0
  end.

(** A line holds one of the placeholder tokens. *)
Definition has_placeholder (line : string) : Prop :=
  exists p, In p Checker.placeholders /\ occurs p line.

(** A text holds one of the example markers. *)
Definition has_marker (s : string) : Prop :=
  exists m, In m Checker.example_indicators /\ occurs m s.

(** [suffix] is [s] from the position of the first [#] of [line] on. *)
Definition from_first_hash (line s suffix : string) : Prop :=
  exists pre rest,
    line = pre ++ "#" ++ rest /\ ~ occurs "#" pre /\
    suffix = drop (String.length pre) s.

(** A line of the rules file that gives a rule: not blank, not a comment,
    and with exactly two bars, that is three fields. *)
Definition gives_rule (line : string) : bool :=
  let l := strip line in
  negb (l =? "") && negb (startswith "#" l) && (count_char "|" l =? 2)%nat.

(** The rule of such a line: its three fields, each stripped. *)
Definition rule_of (line : string) : Checker.rule :=
  match split "|" (strip line) with
  | a :: b :: c :: _ => (strip a, strip b, strip c)
  | _ => ("", "", "")
  end.

(** [cur] is a mapping that has [key], with [v] stored under it, and so
    on along [keys]: the path resolves to [v]. *)
Inductive resolves : Validator.value -> list string -> Validator.value -> Prop :=
| resolves_here v : resolves v [] v
| resolves_step d key keys x v :
    Validator.lookup key d = Some x ->
    resolves x keys v ->
    resolves (Validator.VDict d) (key :: keys) v.

(** The number of platforms whose value is the boolean [True]. *)
Definition enabled_count (d : list (string * Validator.value)) : nat :=
  List.length (filter (fun kv => match snd kv with
                                 | Validator.VBool true => true
                                 | _ => false
                                 end) d).

(** The state with warnings appended. *)
Definition with_warnings (st : Validator.validator) (ws : list string)
  : Validator.validator :=
  {| Validator.config_path := Validator.config_path st;
     Validator.errors := Validator.errors st;
     Validator.warnings := (Validator.warnings st ++ ws)%list;
     Validator.config := Validator.config st |}.

(** The checker with issues appended. *)
Definition with_issues (c : Checker.checker) (l : list Checker.issue)
  : Checker.checker :=
  {| Checker.template_dir := Checker.template_dir c;
     Checker.issues := (Checker.issues c ++ l)%list;
     Checker.checked_files := Checker.checked_files c;
     Checker.hardcoded_patterns := Checker.hardcoded_patterns c |}.

(** A glob pattern without wildcard. *)
Fixpoint no_wildcard (pat : string) : bool :=
  match pat with
  | String c pat' =>
      negb (Ascii.eqb c "*") && negb (Ascii.eqb c "?") && no_wildcard pat'
  | EmptyString => true
  end.

Fixpoint last_char (s : string) : option ascii :=
  match s with
  | EmptyString => None
  | String c EmptyString => Some c
  | String _ s' => last_char s'
  end.

(** The scenario of the specification: a rules file with the one rule
    for [MyOrg], and a template directory with one file of one line. *)
Definition scenario_rules : Checker.patterns_source :=
  {| Checker.ps_lines := ["MyOrg|organization/user name|error"];
     Checker.ps_raises := None |}.

Definition scenario_tree (name : string) : Checker.fsnode :=
  Checker.DirNode
    [(name, Checker.FileNode (Checker.Content "Contact MyOrg for details"))].

Definition scenario_checker : Checker.checker :=
  {| Checker.template_dir := "templates";
     Checker.issues := [];
     Checker.checked_files := 0;
     Checker.hardcoded_patterns :=
       [("MyOrg", "organization/user name", "error")] |}.

Definition scenario_finding (file : string) : Checker.issue :=
  {| Checker.i_file := file;
     Checker.i_line := "1";
     Checker.i_issue := "Potential hardcoded organization/user name: "
                        ++ Checker.dquote ++ "MyOrg" ++ Checker.dquote;
     Checker.i_severity := "error";
     Checker.i_context := Some "Contact MyOrg for details" |}.

(** The warnings of the platform pass on the detail blocks: one for each
    of the three platforms whose flag is truthy and whose block at the top
    level is missing or empty. *)
Definition platform_detail_warnings (cfg d : list (string * Validator.value))
  : list string :=
  flat_map
    (fun fm =>
       let flag := match Validator.lookup (fst fm) d with
                   | Some x => x
                   | None => Validator.VNone
                   end in
       let block := match Validator.lookup (fst fm) cfg with
                    | Some x => x
                    | None => Validator.VDict []
                    end in
       if Validator.truthy flag && negb (Validator.truthy block)
       then [snd fm] else [])
    [("azure_devops",
      "Azure DevOps is enabled but no specific configuration provided");
     ("github", "GitHub is enabled but no specific configuration provided");
     ("jira", "Jira is enabled but no specific configuration provided")].

Definition no_platforms_warning : string :=
  "No platforms are enabled. Consider enabling at least one platform.".

Definition multiple_platforms_warning (n : nat) : string :=
  "Multiple platforms enabled (" ++ of_nat n
  ++ "). Ensure SAZ is configured correctly for all platforms.".

Definition saz_warning : string :=
  "Consider using 'saz' as the primary CLI tool for consistency".

(** Documents on which a pass raises.  All have the required fields; the
    first gives [platforms] as a string, the second [language] as an
    integer, the third [java.version] as the integer 8. *)
Definition project_block : string * Validator.value :=
  ("project", Validator.VDict [("name", Validator.VStr "Demo");
                               ("organization", Validator.VStr "Acme")]).

Definition doc_platforms_string : Validator.value :=
  Validator.VDict
    [project_block;
     ("platforms", Validator.VStr "github");
     ("language", Validator.VStr "python");
     ("tools", Validator.VDict [("cli", Validator.VStr "make")])].

Definition doc_language_integer : Validator.value :=
  Validator.VDict
    [project_block;
     ("platforms", Validator.VDict [("github", Validator.VBool true)]);
     ("github", Validator.VDict [("repo", Validator.VStr "demo")]);
     ("language", Validator.VInt 5);
     ("tools", Validator.VDict [("cli", Validator.VStr "make")])].

Definition doc_java_integer_version : Validator.value :=
  Validator.VDict
    [project_block;
     ("platforms", Validator.VDict [("github", Validator.VBool true)]);
     ("github", Validator.VDict [("repo", Validator.VStr "demo")]);
     ("language", Validator.VStr "java");
     ("java", Validator.VDict [("version", Validator.VInt 8)]);
     ("tools", Validator.VDict [("cli", Validator.VStr "saz");
                                ("test_runner", Validator.VStr "junit")])].

(** Platform flags that are truthy without being [True], and flags under
    names other than the three known ones. *)
Definition flags_truthy : list (string * Validator.value) :=
  [("github", Validator.VInt 1); ("jira", Validator.VStr "yes")].

Definition flags_other_names : list (string * Validator.value) :=
  [("azure_devops", Validator.VInt 1);
   ("gitlab", Validator.VBool true);
   ("bitbucket", Validator.VBool true)].

Definition items_with_platforms (d : list (string * Validator.value))
  : list (string * Validator.value) :=
  [project_block;
   ("platforms", Validator.VDict d);
   ("language", Validator.VStr "python")].

(** The fields after a run that started from [__init__ path]. *)
Definition outcome (path : string) (es ws : list string)
    (doc : Validator.value) : Validator.validator :=
  {| Validator.config_path := path;
     Validator.errors := es;
     Validator.warnings := ws;
     Validator.config := doc |}.

(** *** Notions for the scan *)

(** Every name in the tree, at any depth, satisfies [p]. *)
Fixpoint all_names (p : string -> bool) (node : Checker.fsnode) : bool :=
  match node with
  | Checker.FileNode _ => true
  | Checker.DirNode entries =>
      forallb (fun e => p (fst e) && all_names p (snd e)) entries
  end.

(** A name that ends, letter for letter, in [.{md,yaml,yml}]. *)
Definition brace_name (name : string) : Prop :=
  exists stem, name = stem ++ ".{md,yaml,yml}".

(** The matches of a pattern in a line, none when the pattern does not
    compile. *)
Definition matches_of (finditer : string -> string -> Py.exn + list Checker.rmatch)
    (pattern line : string) : list Checker.rmatch :=
  match finditer pattern line with
  | inr ms => ms
  | inl _ => []
  end.

(** The findings of the rules on a line: rule after rule, and for each
    rule match after match. *)
Definition rule_findings (finditer : string -> string -> Py.exn + list Checker.rmatch)
    (fp : Checker.path) (n : nat) (line : string) (rules : list Checker.rule)
  : list Checker.issue :=
  flat_map (fun r : Checker.rule =>
              map (Checker.match_issue fp n line (snd (fst r)) (snd r))
                  (matches_of finditer (fst (fst r)) line))
           rules.

(** The pattern of each of the rules compiles. *)
Definition engine_accepts (finditer : string -> string -> Py.exn + list Checker.rmatch)
    (line : string) (rules : list Checker.rule) : Prop :=
  Forall (fun r : Checker.rule =>
            exists ms, finditer (fst (fst r)) line = inr ms) rules.

(** The checker [c'] is [c] with findings added that all satisfy [q];
    nothing else changed but, possibly, the count of the files. *)
Definition grows_by (q : Checker.issue -> Prop) (c c' : Checker.checker)
  : Prop :=
  Checker.template_dir c' = Checker.template_dir c /\
  Checker.hardcoded_patterns c' = Checker.hardcoded_patterns c /\
  exists added,
    Checker.issues c' = (Checker.issues c ++ added)%list /\ Forall q added.

(** The severity of a finding comes from one of the rules, or the finding
    reports a file that could not be read. *)
Definition known_severity (rules : list Checker.rule) (i : Checker.issue)
  : Prop :=
  In (Checker.i_severity i) (map snd rules) \/
  (Checker.i_severity i = "error" /\ Checker.i_context i = None).

(** A field of a rule as the loader leaves it: stripped, and without bar. *)
Definition clean_field (f : string) : Prop :=
  strip f = f /\ count_char "|" f = 0.

Definition clean_rule (r : Checker.rule) : Prop :=
  clean_field (fst (fst r)) /\ clean_field (snd (fst r)) /\ clean_field (snd r).

(** *** Notions for the validator *)

(** The state with errors appended. *)
Definition with_errors (st : Validator.validator) (es : list string)
  : Validator.validator :=
  {| Validator.config_path := Validator.config_path st;
     Validator.errors := (Validator.errors st ++ es)%list;
     Validator.warnings := Validator.warnings st;
     Validator.config := Validator.config st |}.

(** The errors of the required-fields pass on a document. *)
Definition required_errors (cfg : Validator.value) : list string :=
  map (fun field_path => "Required field missing: " ++ field_path)
      (filter (fun field_path =>
                 negb (Validator.truthy
                         (Validator._get_nested_value cfg field_path)))
              ["project.name"; "project.organization"; "platforms";
               "language"]).

(** The errors of the type pass on a document. *)
Definition wrong_type (is_type : Validator.value -> bool)
    (cfg : Validator.value) (field_path : string) : bool :=
  let v := Validator._get_nested_value cfg field_path in
  negb (Validator.is_None v) && negb (is_type v).

Definition is_str (v : Validator.value) : bool :=
  match v with Validator.VStr _ => true | _ => false end.
Definition is_bool (v : Validator.value) : bool :=
  match v with Validator.VBool _ => true | _ => false end.
Definition is_dict (v : Validator.value) : bool :=
  match v with Validator.VDict _ => true | _ => false end.

Definition type_errors (cfg : Validator.value) : list string :=
  app
  (map (fun field_path =>
          "Field " ++ field_path ++ " must be a string, got <class '"
          ++ Validator.type_name (Validator._get_nested_value cfg field_path)
          ++ "'>")
       (filter (wrong_type is_str cfg)
               ["project.name"; "project.organization"; "project.description";
                "language"; "framework"; "tools.cli"; "tools.test_runner";
                "tools.linter"]))
  (map (fun field_path =>
          "Field " ++ field_path ++ " must be a boolean, got <class '"
          ++ Validator.type_name (Validator._get_nested_value cfg field_path)
          ++ "'>")
       (filter (wrong_type is_bool cfg)
               ["platforms.azure_devops"; "platforms.github";
                "platforms.jira"])).

(** The key is missing from the mapping, or its value passes the test. *)
Definition absent_or (test : Validator.value -> bool) (key : string)
    (d : list (string * Validator.value)) : bool :=
  match Validator.lookup key d with
  | None => true
  | Some v => test v
  end.



(** The four passes that only warn, in the order of [validate]. *)
Definition warning_passes : Py.M Validator.validator unit :=
  Py.bind Validator._validate_platform_config (fun _ =>
  Py.bind Validator._validate_language_config (fun _ =>
  Py.bind Validator._validate_tool_config (fun _ =>
  Validator._validate_consistency))).

(** The path that [main] validates: the given one when something is
    there, else the first of the fixed paths at which something is. *)
Definition selected (disk : string -> Validator.config_file)
    (config_path chosen : string) : Prop :=
  (Validator.path_exists disk config_path = true /\ chosen = config_path) \/
  (Validator.path_exists disk config_path = false /\
   exists before after,
     Validator.possible_paths = (before ++ chosen :: after)%list /\
     Forall (fun p => Validator.path_exists disk p = false) before /\
     Validator.path_exists disk chosen = true).

(** *** Further notions *)
(** [name.endswith(suffix)] *)
Fixpoint ends_with (suffix name : string) : bool :=
  (name =? suffix) ||
  match name with
  | String _ name' => ends_with suffix name'
  | EmptyString => false
  end.

(** A template directory as one expects it: markdown and YAML files. *)
Definition ordinary_tree : Checker.fsnode :=
  Checker.DirNode
    [("README.md", Checker.FileNode (Checker.Content "Contact MyOrg"));
     ("docs",
      Checker.DirNode
        [("ci.yaml", Checker.FileNode (Checker.Content "org: MyOrg"));
         ("ci.yml",
          Checker.FileNode
            (Checker.ReadRaises (Exn PermissionError "denied")))])].

(** The first character, if any, is not blank. *)
Definition starts_clean (blank : ascii -> bool) (s : string) : Prop :=
  match s with
  | String c _ => blank c = false
  | EmptyString => True
  end.

(** One turn of the loop of [_check_line] over the rules. *)
Definition rule_step (finditer : string -> string -> exn + list Checker.rmatch)
    (fp : Checker.path) (n : nat) (line : string) (r : Checker.rule)
  : M Checker.checker unit :=
  let '(pattern, description, severity) := r in
  bind (lift (finditer pattern line)) (fun matches =>
    Checker.check_matches fp n line description severity matches).

(** The findings of the rules on a line, none in example context. *)
Definition line_findings (finditer : string -> string -> exn + list Checker.rmatch)
    (fp : Checker.path) (n : nat) (line : string) (rules : list Checker.rule)
  : list Checker.issue :=
  if Checker._is_in_example_context line 0 then []
  else rule_findings finditer fp n line rules.

(** A method that, run on a checker with these rules, only adds findings
    of known severity. *)
Definition steps (rules : list Checker.rule) {A} (m : M Checker.checker A)
  : Prop :=
  forall c, Checker.hardcoded_patterns c = rules ->
            grows_by (known_severity rules) c (snd (m c)).
(** A method that leaves the state as it was but for warnings it adds,
    also when it raises. *)
Definition only_warns {A} (m : M Validator.validator A) : Prop :=
  forall st, exists ws, snd (m st) = with_warnings st ws.


(** A document with every field that the passes read, well typed. *)
Definition complete_items : list (string * Validator.value) :=
  [project_block;
   ("platforms", Validator.VDict [("github", Validator.VBool true)]);
   ("github", Validator.VDict [("repo", Validator.VStr "demo")]);
   ("language", Validator.VStr "Python");
   ("python", Validator.VDict [("version", Validator.VStr "3.7")]);
   ("tools", Validator.VDict [("cli", Validator.VStr "SAZ");
                              ("test_runner", Validator.VStr "nose")])].

(** A disk with one configuration file, at the second of the fixed
    paths. *)
Definition disk_with_fallback (p : string) : Validator.config_file :=
  if p =? "project-config.yaml"
  then Validator.Loaded (Validator.VDict complete_items)
  else Validator.Missing.

End Spec.

(* ================================================================= *)
(** ** Facts on strings *)

Module PyStrFacts.
Import PyStr Spec.

Lemma startswith_spec (p s : string) :
  startswith p s = true <-> exists suf, s = p ++ suf.
Proof.
  revert s.
  induction p as [|a p IH]; intros s; simpl.
  - split; [intros _; now exists s | reflexivity].
  - destruct s as [|b s].
    + split; [discriminate | intros [suf H]; discriminate].
    + rewrite andb_true_iff, IH. destruct (Ascii.eqb_spec a b) as [->|Hab].
      * split.
        -- intros [_ [suf H]]. exists suf. now rewrite H.
        -- intros [suf H]. split; [reflexivity|]. exists suf.
           inversion H. reflexivity.
      * split; [intros [H _]; discriminate|].
        intros [suf H]. inversion H. congruence.
Qed.

Lemma str_in_spec (needle hay : string) :
  str_in needle hay = true <-> occurs needle hay.
Proof.
  unfold occurs.
  induction hay as [|c hay IH].
  - simpl. rewrite orb_false_r, startswith_spec. split.
    + intros [suf H]. now exists "", suf.
    + intros [pre [suf H]]. destruct pre; simpl in H.
      * now exists suf.
      * discriminate.
  - simpl. rewrite orb_true_iff, startswith_spec, IH. split.
    + intros [[suf H] | [pre [suf H]]].
      * now exists "", suf.
      * exists (String c pre), suf. simpl. now rewrite H.
    + intros [pre [suf H]]. destruct pre as [|d pre]; simpl in H.
      * left. now exists suf.
      * right. inversion H. now exists pre, suf.
Qed.

Lemma occurs_drop (needle s : string) (n : nat) :
  occurs needle (drop n s) -> occurs needle s.
Proof.
  revert s. induction n as [|n IH]; intros s H.
  - now destruct s.
  - destruct s as [|c s]; simpl in H; [assumption|].
    destruct (IH _ H) as [pre [suf E]].
    exists (String c pre), suf. simpl. now rewrite E.
Qed.

(** The first index of a character, when it occurs. *)
Lemma find_char_first (c : ascii) (pre rest : string) :
  ~ occurs (String c "") pre ->
  find (String c "") (pre ++ String c rest) = Z.of_nat (String.length pre).
Proof.
  induction pre as [|d pre IH]; intros Hno.
  - simpl. now rewrite Ascii.eqb_refl.
  - assert (Hd : d <> c).
    { intros ->. apply Hno. now exists "", pre. }
    assert (Hpre : ~ occurs (String c "") pre).
    { intros [a [b E]]. apply Hno. exists (String d a), b. simpl. now rewrite E. }
    cbn [append find startswith].
    destruct (Ascii.eqb_spec c d) as [E|_]; [now subst|].
    cbn [andb]. rewrite (IH Hpre).
    destruct (Z.ltb_spec (Z.of_nat (String.length pre)) 0); [lia|].
    cbn [String.length]. lia.
Qed.

Lemma occurs_char_split (c : ascii) (s : string) :
  occurs (String c "") s ->
  exists pre rest, s = pre ++ String c rest /\ ~ occurs (String c "") pre.
Proof.
  induction s as [|d s IH]; intros [a [b E]].
  - destruct a; discriminate.
  - destruct (ascii_dec d c) as [->|Hd].
    + exists "", s. split; [reflexivity|].
      intros [a' [b' E']]. destruct a'; discriminate.
    + destruct a as [|x a]; simpl in E.
      * exfalso. apply Hd. congruence.
      * assert (Es : s = a ++ String c b) by congruence.
        destruct IH as [pre [rest [E1 Hno]]]; [now exists a, b|].
        exists (String d pre), rest. split; [simpl; now rewrite E1|].
        intros [a' [b' E']]. destruct a' as [|y a']; simpl in E'.
        -- apply Hd. congruence.
        -- apply Hno. exists a', b'. simpl. congruence.
Qed.

Lemma split_length (sep : ascii) (s : string) :
  List.length (split sep s) = S (count_char sep s).
Proof.
  induction s as [|c s IH]; simpl; [reflexivity|].
  destruct (Ascii.eqb c sep); simpl; [now rewrite IH|].
  destruct (split sep s); simpl in *; [discriminate | assumption].
Qed.

End PyStrFacts.

(* ================================================================= *)
(** ** Properties of the hardcoded-values checker *)

Module CheckerFacts.
Import PyStr Py Checker Spec PyStrFacts.

(** *** The rules file *)

Lemma parse_line_spec (line : string) :
  parse_line line = if gives_rule line then [rule_of line] else [].
Proof.
  unfold parse_line, gives_rule, rule_of.
  destruct (strip line =? ""); [reflexivity|].
  destruct (startswith "#" (strip line)); [reflexivity|]. cbn [negb andb orb].
  pose proof (split_length "|" (strip line)) as H.
  destruct (split "|" (strip line)) as [|a [|b [|c [|d t]]]];
    simpl in H; try discriminate; injection H as H; rewrite <- H; reflexivity.
Qed.

Lemma flat_map_parse_line (lines : list string) :
  flat_map parse_line lines = map rule_of (filter gives_rule lines).
Proof.
  induction lines as [|l lines IH]; [reflexivity|].
  cbn [flat_map filter]. rewrite parse_line_spec, IH.
  now destruct (gives_rule l).
Qed.

(** C5.  The pattern loader never raises.  When opening or reading the
    rules file raises (absent, unreadable, undecodable), it returns the two
    built-in rules.  When the file is read to its end, it returns, in the
    order of the file, the rules of the lines that are not blank, do not
    start with [#] and have exactly three fields between bars; every other
    line is skipped, and a file without lines gives no rule. *)
Theorem load_patterns_never_raises (src : patterns_source) :
  (exists rules, _load_patterns src = inr rules) /\
  (forall e, ps_raises src = Some e ->
             _load_patterns src = inr default_patterns) /\
  (ps_raises src = None ->
   _load_patterns src = inr (map rule_of (filter gives_rule (ps_lines src)))) /\
  List.length default_patterns = 2 /\
  _load_patterns {| ps_lines := []; ps_raises := None |} = inr [].
Proof.
  unfold _load_patterns, read_patterns.
  destruct src as [lines [e|]]; cbn [ps_raises ps_lines].
  - repeat split.
    + exists default_patterns. now destruct e as [[] m].
    + intros e' _. now destruct e as [[] m].
    + discriminate.
  - repeat split.
    + eexists; reflexivity.
    + discriminate.
    + intros _. now rewrite flat_map_parse_line.
Qed.

Lemma load_patterns_never_raises_witness :
  _load_patterns {| ps_lines := ["# rules"; ""; "MyOrg|organization/user name|error";
                                 "broken|line"; " a | b | c "; "w|x|y|z"];
                    ps_raises := None |}
  = inr [("MyOrg", "organization/user name", "error"); ("a", "b", "c")]
  /\ _load_patterns {| ps_lines := ["MyOrg|organization/user name|error"];
                       ps_raises := Some (Exn UnicodeDecodeError "invalid start byte") |}
     = inr default_patterns.
Proof.
  split.
  - exact (proj1 (proj2 (proj2
      (load_patterns_never_raises
         {| ps_lines := ["# rules"; ""; "MyOrg|organization/user name|error";
                         "broken|line"; " a | b | c "; "w|x|y|z"];
            ps_raises := None |}))) eq_refl).
  - exact (proj1 (proj2
      (load_patterns_never_raises
         {| ps_lines := ["MyOrg|organization/user name|error"];
            ps_raises := Some (Exn UnicodeDecodeError "invalid start byte") |}))
      _ eq_refl).
Defined.

(** *** Example context *)

Lemma has_marker_b (s : string) :
  existsb (fun indicator => str_in indicator s) example_indicators = true
  <-> has_marker s.
Proof.
  rewrite existsb_exists. unfold has_marker.
  split; intros [m [Hin H]]; exists m; split; try assumption;
    now apply str_in_spec.
Qed.

Lemma slice_from_nat (n : nat) (s : string) :
  slice_from (Z.of_nat n) s = drop n s.
Proof.
  unfold slice_from.
  destruct (Z.ltb_spec (Z.of_nat n) 0); [lia|]. now rewrite Nat2Z.id.
Qed.

Lemma with_issues_nil (c : checker) : with_issues c [] = c.
Proof. destruct c. unfold with_issues. simpl. now rewrite app_nil_r. Qed.

Lemma check_matches_spec (fp : path) (n : nat) (line desc sev : string)
    (matches : list rmatch) (c : checker) :
  check_matches fp n line desc sev matches c =
  (inr tt, with_issues c
             (if _is_in_example_context line 0 then []
              else map (match_issue fp n line desc sev) matches)).
Proof.
  unfold check_matches.
  change (fun m : rmatch =>
            if _is_in_example_context line (m_start m) then ret tt
            else append_issue (match_issue fp n line desc sev m))
    with (fun m : rmatch =>
            if _is_in_example_context line 0 then @ret checker unit tt
            else append_issue (match_issue fp n line desc sev m)).
  destruct (_is_in_example_context line 0).
  - rewrite with_issues_nil.
    induction matches as [|m ms IH]; [reflexivity|].
    cbn [for_each]. unfold bind at 1. unfold ret at 1. exact IH.
  - revert c. induction matches as [|m ms IH]; intros c.
    + cbn [for_each map]. now rewrite with_issues_nil.
    + cbn [for_each map]. unfold bind at 1. unfold append_issue at 1.
      unfold modify at 1. rewrite IH. f_equal.
      destruct c. unfold with_issues. simpl. now rewrite <- app_assoc.
Qed.

(** C6.  A match is suppressed exactly when the lowercased line holds one
    of the markers, or the line holds a [#] and the lowercased line from
    the position of its first [#] on holds one.  The answer does not depend
    on the position of the match, and the matches of a rule in a line give
    one finding each when the line is not in example context and none when
    it is. *)
Theorem example_context_iff_marker (line : string) :
  (forall pos,
     _is_in_example_context line pos = true <->
     has_marker (lower line) \/
     (occurs "#" line /\
      exists suffix,
        from_first_hash line (lower line) suffix /\ has_marker suffix)) /\
  (forall pos pos',
     _is_in_example_context line pos = _is_in_example_context line pos') /\
  (forall fp n desc sev matches c,
     check_matches fp n line desc sev matches c =
     (inr tt,
      with_issues c
        (if _is_in_example_context line 0 then []
         else map (match_issue fp n line desc sev) matches))).
Proof.
  split; [|split; [reflexivity | intros; apply check_matches_spec]].
  intros pos. unfold _is_in_example_context. cbv zeta.
  destruct (existsb (fun i => str_in i (lower line)) example_indicators) eqn:A.
  { split; [intros _; left; now apply has_marker_b | reflexivity]. }
  destruct (str_in "#" line) eqn:Hh; cbn [andb].
  - apply str_in_spec in Hh.
    destruct (occurs_char_split _ _ Hh) as [pre [rest [E Hno]]].
    assert (Hf : slice_from (find "#" line) (lower line)
                 = drop (String.length pre) (lower line)).
    { rewrite E, (find_char_first "#" pre rest Hno). apply slice_from_nat. }
    rewrite Hf.
    destruct (existsb (fun i => str_in i (drop (String.length pre) (lower line)))
                      example_indicators) eqn:B.
    + split; [intros _ | reflexivity]. right. split; [assumption|].
      exists (drop (String.length pre) (lower line)). split.
      * exists pre, rest. repeat split; assumption.
      * now apply has_marker_b.
    + split; [discriminate|].
      intros [HA | [_ [suffix [[pre' [rest' [E' [Hno' Es]]]] Hm]]]].
      * apply has_marker_b in HA. congruence.
      * exfalso.
        assert (Hlen : Z.of_nat (String.length pre') = Z.of_nat (String.length pre)).
        { rewrite <- (find_char_first "#" pre' rest' Hno').
          rewrite <- (find_char_first "#" pre rest Hno).
          simpl in E'. congruence. }
        apply Nat2Z.inj in Hlen. rewrite Hlen in Es. subst suffix.
        apply has_marker_b in Hm. congruence.
  - split; [discriminate|].
    intros [HA | [Hocc _]].
    + apply has_marker_b in HA. congruence.
    + apply str_in_spec in Hocc. congruence.
Qed.

(** The clause on [#] adds nothing: a marker after the [#] is a marker of
    the line. *)
Lemma comment_clause_is_subsumed (line : string) (pos : nat) :
  _is_in_example_context line pos
  = existsb (fun indicator => str_in indicator (lower line)) example_indicators.
Proof.
  unfold _is_in_example_context. cbv zeta.
  destruct (existsb (fun i => str_in i (lower line)) example_indicators) eqn:A;
    [reflexivity|].
  destruct (str_in "#" line); [|reflexivity]. cbn [andb].
  destruct (existsb
              (fun i => str_in i (slice_from (find "#" line) (lower line)))
              example_indicators) eqn:B; [|reflexivity].
  apply has_marker_b in B. destruct B as [m [Hin Hocc]].
  assert (Hline : has_marker (lower line)).
  { exists m. split; [assumption|]. unfold slice_from in Hocc.
    destruct (find "#" line <? 0)%Z; eapply occurs_drop; eassumption. }
  apply has_marker_b in Hline. congruence.
Qed.

Lemma example_context_iff_marker_witness :
  _is_in_example_context "# e.g. MyOrg is a sample org" 7 = true /\
  _is_in_example_context "Contact MyOrg for details" 8 = false.
Proof.
  split.
  - apply (proj1 (example_context_iff_marker "# e.g. MyOrg is a sample org")).
    left. exists "e.g.". split; [simpl; tauto|].
    now exists "# ", " myorg is a sample org".
  - rewrite (proj1 (proj2 (example_context_iff_marker
                             "Contact MyOrg for details")) 8 0).
    reflexivity.
Defined.

(** *** Placeholder lines *)

(** C7.  On a line that holds [[PROJECT_NAME]], [[ORG_NAME]] or
    [[TOOL_COMMAND]], [_check_line] returns at once: whatever the loaded
    rules and whatever the regex engine would answer (it is not asked), the
    issues stay as they were. *)
Theorem placeholder_line_gives_no_finding
    (finditer : string -> string -> exn + list rmatch)
    (fp : path) (n : nat) (line : string) (c : checker) :
  has_placeholder line ->
  _check_line finditer fp n line c = (inr tt, c).
Proof.
  intros [p [Hin Hocc]]. unfold _check_line.
  assert (H : existsb (fun placeholder => str_in placeholder line) placeholders
              = true).
  { apply existsb_exists. exists p. split; [assumption|]. now apply str_in_spec. }
  now rewrite H.
Qed.

Lemma placeholder_line_gives_no_finding_witness :
  has_placeholder "Maintained by MyOrg for [PROJECT_NAME]" /\
  _check_line literal_finditer ["templates"; "README.md"] 3
              "Maintained by MyOrg for [PROJECT_NAME]" scenario_checker
  = (inr tt, scenario_checker).
Proof.
  assert (H : has_placeholder "Maintained by MyOrg for [PROJECT_NAME]").
  { exists "[PROJECT_NAME]". split; [simpl; tauto|].
    now exists "Maintained by MyOrg for ", "". }
  split; [exact H|].
  exact (placeholder_line_gives_no_finding literal_finditer
           ["templates"; "README.md"] 3 _ scenario_checker H).
Defined.

(** *** The enumeration of the files *)

Lemma fnmatch_star_step (lit : string) (c : ascii) (name : string) :
  fnmatch (String "*" lit) (String c name)
  = fnmatch lit (String c name) || fnmatch (String "*" lit) name.
Proof. reflexivity. Qed.

Lemma fnmatch_star_empty (lit : string) :
  fnmatch (String "*" lit) "" = fnmatch lit "".
Proof. simpl. now rewrite orb_false_r. Qed.

Lemma fnmatch_literal (lit : string) :
  no_wildcard lit = true -> forall name, fnmatch lit name = (name =? lit).
Proof.
  induction lit as [|c lit IH]; intros Hw name.
  - reflexivity.
  - simpl in Hw. apply andb_true_iff in Hw as [Hw Hlit].
    apply andb_true_iff in Hw as [Hs Hq].
    apply negb_true_iff in Hs, Hq.
    cbn [fnmatch]. rewrite Hs, Hq.
    destruct name as [|d name]; [reflexivity|].
    rewrite (IH Hlit). reflexivity.
Qed.

(** A pattern [*lit] with [lit] free of wildcards selects the names that
    end in [lit], taken letter for letter. *)
Lemma fnmatch_star_literal (lit : string) :
  no_wildcard lit = true ->
  forall name,
    fnmatch (String "*" lit) name = true <-> exists stem, name = stem ++ lit.
Proof.
  intros Hw. induction name as [|c name IH].
  - rewrite fnmatch_star_empty, (fnmatch_literal lit Hw), String.eqb_eq. split.
    + intros <-. now exists "".
    + intros [stem H]. destruct stem; [assumption | discriminate].
  - rewrite fnmatch_star_step, orb_true_iff, IH, (fnmatch_literal lit Hw),
      String.eqb_eq. split.
    + intros [<- | [stem H]]; [now exists "" | exists (String c stem)].
      simpl. now rewrite H.
    + intros [stem H]. destruct stem as [|d stem]; simpl in H.
      * now left.
      * right. exists stem. congruence.
Qed.

Lemma last_char_append (a b : string) :
  b <> "" -> last_char (a ++ b) = last_char b.
Proof.
  intros Hb. induction a as [|c a IH]; [reflexivity|].
  simpl. rewrite IH. destruct (a ++ b) eqn:E; [|reflexivity].
  destruct a; simpl in E; [contradiction | discriminate].
Qed.

(** No name that ends in [.md], [.yaml] or [.yml] is selected by the
    pattern of the scanner. *)
Lemma template_extensions_not_selected (stem ext : string) :
  In ext [".md"; ".yaml"; ".yml"] ->
  fnmatch "*.{md,yaml,yml}" (stem ++ ext) = false.
Proof.
  intros Hext. apply not_true_is_false. intros H.
  apply (fnmatch_star_literal ".{md,yaml,yml}" eq_refl) in H as [stem' H].
  apply (f_equal last_char) in H.
  rewrite (last_char_append stem' ".{md,yaml,yml}") in H by discriminate.
  simpl in Hext. destruct Hext as [<- | [<- | [<- | []]]];
    rewrite last_char_append in H by discriminate; discriminate.
Qed.

(** C1, on the scenario of the specification.  The rules file holds the
    rule for [MyOrg] and the template directory holds [README.md] with the
    line [Contact MyOrg for details].  The glob pattern selects no entry,
    so no file is read, no finding is made and the exit status is 0,
    whatever the regex engine.  The same file under a name that ends,
    letter for letter, in [.{md,yaml,yml}] is scanned and gives the one
    error finding and the exit status 1. *)
Theorem markdown_file_is_not_scanned
    (finditer : string -> string -> exn + list rmatch) :
  __init__ "templates" scenario_rules = inr scenario_checker /\
  glob ["templates"] (scenario_tree "README.md") "**/*.{md,yaml,yml}" = [] /\
  check_all_files finditer (Some (scenario_tree "README.md")) scenario_checker
    = (inr true, scenario_checker) /\
  main finditer "templates" scenario_rules (Some (scenario_tree "README.md"))
    = inr 0%Z /\
  check_all_files literal_finditer
      (Some (scenario_tree "README.{md,yaml,yml}")) scenario_checker
    = (inr false,
       {| template_dir := "templates";
          issues := [scenario_finding "templates/README.{md,yaml,yml}"];
          checked_files := 1;
          hardcoded_patterns := hardcoded_patterns scenario_checker |}) /\
  main literal_finditer "templates" scenario_rules
       (Some (scenario_tree "README.{md,yaml,yml}")) = inr 1%Z.
Proof. repeat split; reflexivity. Qed.

End CheckerFacts.

(* ================================================================= *)
(** ** Properties of the configuration validator *)

Module ValidatorFacts.
Import PyStr Py Validator Spec PyStrFacts.

(** *** The overall result *)

(** C4.  [validate] returns [True] exactly when [self.errors] is empty
    afterwards, on the normal path and on the path of the [except] alike;
    the warnings play no part. *)
Theorem validate_true_iff_no_errors (f : config_file) (st : validator) :
  fst (validate f st) = true <-> errors (snd (validate f st)) = [].
Proof.
  unfold validate.
  destruct (run_checks f st) as [[e | u] st']; cbn [fst snd].
  - unfold add_error. cbn [errors]. split; [discriminate|].
    intros H. now apply app_eq_nil in H as [_ H].
  - destruct (errors st') as [|m ms]; cbn; split; congruence.
Qed.

(** *** Dotted paths *)

Lemma walk_resolves (cur : value) (keys : list string) (v : value) :
  resolves cur keys v -> walk cur keys = v.
Proof.
  induction 1 as [v | d key keys x v Hl _ IH]; [reflexivity|].
  cbn [walk]. now rewrite Hl.
Qed.

Lemma walk_total (keys : list string) :
  forall cur, resolves cur keys (walk cur keys) \/
              (walk cur keys = VNone /\ forall v, ~ resolves cur keys v).
Proof.
  induction keys as [|key keys IH]; intros cur.
  - left. constructor.
  - cbn [walk]. destruct cur as [ | b | z | s | l | d];
      try (right; split; [reflexivity | intros v H; inversion H]).
    destruct (lookup key d) as [x|] eqn:Hl.
    + destruct (IH x) as [H | [H Hno]].
      * left. econstructor; eassumption.
      * right. split; [assumption|]. intros v Hr. inversion Hr; subst.
        assert (x0 = x) by congruence. subst. now apply (Hno v).
    + right. split; [reflexivity|]. intros v Hr. inversion Hr; congruence.
Qed.

(** In a mapping (distinct keys) [lookup] finds the value stored under a
    key. *)
Lemma lookup_In (key : string) (d : list (string * value)) (v : value) :
  NoDup (map fst d) -> (lookup key d = Some v <-> In (key, v) d).
Proof.
  induction d as [|[k x] d IH]; intros Hnd; cbn [lookup].
  - split; [discriminate | intros []].
  - inversion Hnd as [|? ? Hk Hnd']; subst.
    destruct (String.eqb_spec k key) as [->|Hne].
    + split.
      * intros H. left. congruence.
      * intros [H | H]; [congruence|]. exfalso. apply Hk.
        change key with (fst (key, v)). now apply in_map.
    + rewrite (IH Hnd'). split; [now right|].
      intros [H | H]; [congruence | assumption].
Qed.

(** C8.  [_get_nested_value] returns the stored value when the dotted path
    resolves through mappings that hold each next key, and [None] when it
    does not resolve (a key is missing, or a value on the way is not a
    mapping); it is a total function and raises nothing. *)
Theorem get_nested_value_resolves (cfg : value) (field_path : string) :
  (forall v, resolves cfg (split "." field_path) v ->
             _get_nested_value cfg field_path = v) /\
  ((forall v, ~ resolves cfg (split "." field_path) v) ->
   _get_nested_value cfg field_path = VNone).
Proof.
  unfold _get_nested_value. split.
  - intros v H. now apply walk_resolves.
  - intros Hno. destruct (walk_total (split "." field_path) cfg) as [H | [H _]].
    + now apply Hno in H.
    + assumption.
Qed.

Lemma get_nested_value_resolves_witness :
  _get_nested_value doc_platforms_string "project.name" = VStr "Demo" /\
  _get_nested_value doc_platforms_string "platforms.github" = VNone.
Proof.
  split.
  - apply (proj1 (get_nested_value_resolves doc_platforms_string "project.name")).
    eapply resolves_step; [reflexivity|].
    eapply resolves_step; [reflexivity|]. apply resolves_here.
  - apply (proj2 (get_nested_value_resolves doc_platforms_string
                    "platforms.github")).
    intros v H. inversion H as [|? ? ? ? ? Hl Hr]; subst.
    cbn in Hl. injection Hl as <-. inversion Hr.
Defined.

(** *** The empty document *)

(** C9.  When [yaml.safe_load] returns [None] (an empty file, or comments
    only), [_load_config] stores the empty mapping and raises nothing; the
    passes then run, and the errors are the four missing required fields,
    one message each. *)
Theorem empty_document_reports_required_fields (path : string) :
  (forall st, _load_config (Loaded VNone) st = (inr tt, set_config (VDict []) st)) /\
  validate (Loaded VNone) (__init__ path) =
  (false,
   outcome path
     ["Required field missing: project.name";
      "Required field missing: project.organization";
      "Required field missing: platforms";
      "Required field missing: language"]
     [no_platforms_warning; saz_warning]
     (VDict [])).
Proof. split; reflexivity. Qed.

(** *** Passes that raise *)

(** C2, at two documents that load.  With [platforms] given as a string
    the platform pass raises [AttributeError]; with [language] given as
    an integer the language pass does.  [validate] catches the exception,
    records it as one more error and returns: the passes after the one
    that raised do not run.  The warning on the CLI tool, which the tool
    pass appends for both documents when it is run, is not among the
    warnings. *)
Theorem raising_pass_skips_later_passes (path : string) :
  (validate (Loaded doc_platforms_string) (__init__ path) =
   (false,
    outcome path
      ["Failed to validate config: 'str' object has no attribute 'items'"]
      [] doc_platforms_string)
   /\ _validate_tool_config (outcome path [] [] doc_platforms_string) =
      (inr tt, outcome path [] [saz_warning] doc_platforms_string)
   /\ ~ In saz_warning
         (warnings (snd (validate (Loaded doc_platforms_string) (__init__ path)))))
  /\
  (validate (Loaded doc_language_integer) (__init__ path) =
   (false,
    outcome path
      ["Field language must be a string, got <class 'int'>";
       "Failed to validate config: 'int' object has no attribute 'lower'"]
      [] doc_language_integer)
   /\ In saz_warning
        (warnings (snd (_validate_tool_config
                          (outcome path [] [] doc_language_integer))))
   /\ ~ In saz_warning
         (warnings (snd (validate (Loaded doc_language_integer) (__init__ path))))).
Proof.
  split; [split; [|split] | split; [|split]]; try reflexivity.
  - cbn. intros [].
  - cbn. now left.
  - cbn. intros [].
Qed.

(** *** Versions *)

Lemma py_int_raises_ValueError (s : string) (e : exn) :
  py_int s = inl e -> exn_cls e = ValueError.
Proof.
  unfold py_int.
  destruct (match rstrip_with is_c_space (lstrip_with is_c_space s) with
            | String "-" t => option_map Z.opp (digits 0 false t)
            | String "+" t => digits 0 false t
            | t => digits 0 false t
            end); [discriminate|].
  now intros [= <-].
Qed.

Lemma unpack_two_ints_raises_ValueError (parts : list string) (e : exn) :
  unpack_two_ints parts = inl e -> exn_cls e = ValueError.
Proof.
  unfold unpack_two_ints.
  destruct parts as [|p [|q t]].
  - now intros [= <-].
  - destruct (py_int p) eqn:Hp.
    + intros [= <-]. eapply py_int_raises_ValueError; eassumption.
    + now intros [= <-].
  - destruct (py_int p) eqn:Hp.
    + intros [= <-]. eapply py_int_raises_ValueError; eassumption.
    + destruct (py_int q) eqn:Hq; [|discriminate].
      intros [= <-]. eapply py_int_raises_ValueError; eassumption.
Qed.

Lemma split_of_raises_AttributeError (v : value) (sep : ascii) (e : exn) :
  split_of v sep = inl e -> exn_cls e = AttributeError.
Proof. destruct v; cbn; try discriminate; now intros [= <-]. Qed.

Lemma catch_covers (body : exn + bool) :
  (forall e, body = inl e ->
             exn_cls e = ValueError \/ exn_cls e = AttributeError) ->
  exists b, catch_value_or_attribute body = inr b.
Proof.
  intros H. unfold catch_value_or_attribute.
  destruct body as [e | b]; [|now exists b].
  destruct (H e eq_refl) as [-> | ->]; now exists false.
Qed.

Lemma python_version_never_raises (v : value) :
  exists b, _is_valid_python_version v = inr b.
Proof.
  apply catch_covers. intros e. unfold python_version_body.
  destruct (split_of v ".") as [e' | parts] eqn:Hs.
  - intros [= <-]. right. eapply split_of_raises_AttributeError; eassumption.
  - destruct (unpack_two_ints (firstn 2 parts)) as [e' | [major minor]] eqn:Hu;
      [|discriminate].
    intros [= <-]. left. eapply unpack_two_ints_raises_ValueError; eassumption.
Qed.

Lemma dotnet_version_never_raises (v : value) :
  exists b, _is_valid_dotnet_version v = inr b.
Proof.
  apply catch_covers. intros e. unfold dotnet_version_body.
  destruct (split_of v ".") as [e' | parts] eqn:Hs.
  - intros [= <-]. right. eapply split_of_raises_AttributeError; eassumption.
  - destruct (unpack_two_ints (firstn 2 parts)) as [e' | [major minor]] eqn:Hu;
      [|discriminate].
    intros [= <-]. left. eapply unpack_two_ints_raises_ValueError; eassumption.
Qed.

(** C3, at a document with [java.version] given as the integer 8.  The
    test against the LTS strings is false and [startswith] is then asked
    of an integer: [_is_valid_java_version] raises [AttributeError], which
    nothing catches before [validate].  The run ends with an error and
    without the warning on the Java version.  The Python and .NET checks
    catch the same exception and never raise, and the Java check does not
    raise on a string. *)
Theorem java_integer_version_aborts (path : string) :
  _is_valid_java_version (VInt 8) =
    inl (Exn AttributeError "'int' object has no attribute 'startswith'") /\
  validate (Loaded doc_java_integer_version) (__init__ path) =
    (false,
     outcome path
       ["Failed to validate config: 'int' object has no attribute 'startswith'"]
       [] doc_java_integer_version) /\
  _is_valid_python_version (VInt 8) = inr false /\
  _is_valid_dotnet_version (VInt 8) = inr false /\
  (forall v, exists b, _is_valid_python_version v = inr b) /\
  (forall v, exists b, _is_valid_dotnet_version v = inr b) /\
  (forall s, exists b, _is_valid_java_version (VStr s) = inr b).
Proof.
  repeat split; try reflexivity.
  - apply python_version_never_raises.
  - apply dotnet_version_never_raises.
  - intros s. unfold _is_valid_java_version.
    destruct (in_strs (VStr s) ["8"; "11"; "17"; "21"]); eexists; reflexivity.
Qed.

(** *** Enabled platforms *)

Lemma enabled_names_empty (d : list (string * value)) :
  match map fst (filter (fun kv => is_True (snd kv)) d) with
  | [] => true
  | _ => false
  end = (enabled_count d =? 0)%nat.
Proof.
  unfold enabled_count.
  change (fun kv : string * value =>
            match snd kv with VBool true => true | _ => false end)
    with (fun kv : string * value => is_True (snd kv)).
  now destruct (filter (fun kv => is_True (snd kv)) d).
Qed.

Lemma enabled_values_count (d : list (string * value)) :
  List.length (filter is_True (map snd d)) = enabled_count d.
Proof.
  unfold enabled_count. induction d as [|[k v] d IH]; [reflexivity|].
  cbn [map filter snd]. change (match v with VBool true => true | _ => false end)
    with (is_True v).
  destruct (is_True v); cbn [List.length]; now rewrite IH.
Qed.

(** C10.  When [platforms] is a mapping, the platform pass warns that no
    platform is enabled exactly when no value under it is the boolean
    [True], and the consistency pass warns exactly when more than one is,
    with their number: both count over all the keys of the mapping and
    count nothing but [True].  (The warnings on the detail blocks follow
    the truthiness of the three known flags.) *)
Theorem enabled_platforms_are_exactly_true
    (st : validator) (cfg d : list (string * value)) :
  config st = VDict cfg ->
  lookup "platforms" cfg = Some (VDict d) ->
  _validate_platform_config st =
    (inr tt,
     with_warnings st
       ((if (enabled_count d =? 0)%nat then [no_platforms_warning] else [])
        ++ platform_detail_warnings cfg d)) /\
  _validate_consistency st =
    (inr tt,
     with_warnings st
       (if (1 <? enabled_count d)%nat
        then [multiple_platforms_warning (enabled_count d)] else [])) /\
  is_True (VInt 1) = false /\ is_True (VStr "yes") = false.
Proof.
  intros Hcfg Hp. destruct st as [p es ws c]. cbn in Hcfg. subst c.
  split; [|split; [|split; reflexivity]].
  - unfold _validate_platform_config, config_get, _validate_azure_devops_config,
      _validate_github_config, _validate_jira_config, config_get,
      platform_detail_warnings, with_warnings, warn, when.
    unfold bind, lift, gets, modify, ret, get, items_of.
    cbn -[lookup enabled_count]. rewrite Hp. cbn -[lookup enabled_count].
    rewrite enabled_names_empty.
    repeat match goal with
           | |- context [if ?b then _ else _] =>
               destruct b; cbn -[lookup enabled_count]
           end;
      unfold add_warning; cbn;
      rewrite <- ?app_assoc, ?app_nil_r; reflexivity.
  - unfold _validate_consistency, config_get, with_warnings, warn, when.
    unfold bind, lift, gets, modify, ret, get, values_of.
    cbn -[lookup enabled_count Nat.ltb]. rewrite Hp.
    cbn -[lookup enabled_count Nat.ltb].
    rewrite enabled_values_count.
    destruct (1 <? enabled_count d)%nat; unfold add_warning; cbn;
      rewrite ?app_nil_r; reflexivity.
Qed.

Lemma enabled_platforms_are_exactly_true_witness :
  let st1 := outcome "c.yaml" [] [] (VDict (items_with_platforms flags_truthy)) in
  let st2 :=
    outcome "c.yaml" [] [] (VDict (items_with_platforms flags_other_names)) in
  _validate_platform_config st1 =
    (inr tt,
     with_warnings st1
       [no_platforms_warning;
        "GitHub is enabled but no specific configuration provided";
        "Jira is enabled but no specific configuration provided"]) /\
  _validate_consistency st1 = (inr tt, with_warnings st1 []) /\
  _validate_platform_config st2 =
    (inr tt,
     with_warnings st2
       ["Azure DevOps is enabled but no specific configuration provided"]) /\
  _validate_consistency st2 =
    (inr tt,
     with_warnings st2
       ["Multiple platforms enabled (2). Ensure SAZ is configured correctly for all platforms."]).
Proof.
  intros st1 st2.
  destruct (enabled_platforms_are_exactly_true
              st1 (items_with_platforms flags_truthy) flags_truthy
              eq_refl eq_refl) as [P1 [C1 _]].
  destruct (enabled_platforms_are_exactly_true
              st2 (items_with_platforms flags_other_names) flags_other_names
              eq_refl eq_refl) as [P2 [C2 _]].
  repeat split; assumption.
Defined.

End ValidatorFacts.

(* ================================================================= *)
(** ** More on the hardcoded-values checker *)

Module CheckerScan.
Import PyStr Py Checker Spec PyStrFacts CheckerFacts.

(** *** Strings of the rules file *)

Section StripFacts.
Variable blank : ascii -> bool.

Lemma lstrip_starts_clean (s : string) :
  starts_clean blank (lstrip_with blank s).
Proof.
  induction s as [|c s IH]; simpl; [exact I|].
  destruct (blank c) eqn:E; [assumption | exact E].
Qed.

Lemma lstrip_fixed (s : string) :
  starts_clean blank s -> lstrip_with blank s = s.
Proof. destruct s as [|c s]; simpl; [reflexivity | now intros ->]. Qed.

Lemma rstrip_starts_clean (s : string) :
  starts_clean blank s -> starts_clean blank (rstrip_with blank s).
Proof.
  destruct s as [|c s]; simpl; [trivial|]. intros Hc.
  destruct (rstrip_with blank s); [rewrite Hc|]; exact Hc.
Qed.

Lemma rstrip_cons (c : ascii) (s : string) :
  rstrip_with blank (String c s) =
  match rstrip_with blank s with
  | EmptyString => if blank c then EmptyString else String c EmptyString
  | r => String c r
  end.
Proof. reflexivity. Qed.

Lemma rstrip_idempotent (s : string) :
  rstrip_with blank (rstrip_with blank s) = rstrip_with blank s.
Proof.
  induction s as [|c s IH]; [reflexivity|]. rewrite rstrip_cons.
  destruct (rstrip_with blank s) as [|d r] eqn:E.
  - destruct (blank c) eqn:Hc; [reflexivity|]. simpl. now rewrite Hc.
  - rewrite rstrip_cons, IH. reflexivity.
Qed.

Lemma count_lstrip (c : ascii) (s : string) :
  count_char c (lstrip_with blank s) <= count_char c s.
Proof.
  induction s as [|d s IH]; simpl; [lia|].
  destruct (blank d); simpl; lia.
Qed.

Lemma count_rstrip (c : ascii) (s : string) :
  count_char c (rstrip_with blank s) <= count_char c s.
Proof.
  induction s as [|d s IH]; simpl; [lia|].
  destruct (rstrip_with blank s) as [|e r].
  - destruct (blank d); simpl in *; lia.
  - cbn [count_char] in *. lia.
Qed.

End StripFacts.

Lemma strip_idempotent (s : string) : strip (strip s) = strip s.
Proof.
  unfold strip.
  rewrite (lstrip_fixed is_space (rstrip_with is_space (lstrip_with is_space s))).
  - apply rstrip_idempotent.
  - apply rstrip_starts_clean, lstrip_starts_clean.
Qed.

Lemma count_strip (c : ascii) (s : string) :
  count_char c (strip s) <= count_char c s.
Proof.
  unfold strip.
  pose proof (count_rstrip is_space c (lstrip_with is_space s)).
  pose proof (count_lstrip is_space c s). lia.
Qed.

Lemma split_parts_without_separator (sep : ascii) (s : string) :
  Forall (fun part => count_char sep part = 0) (split sep s).
Proof.
  induction s as [|c s IH]; simpl.
  - repeat constructor.
  - destruct (Ascii.eqb c sep) eqn:E.
    + constructor; [reflexivity | assumption].
    + destruct (split sep s) as [|h t]; [repeat constructor; simpl; now rewrite E|].
      inversion IH; subst. constructor; [|assumption]. simpl. now rewrite E.
Qed.

Lemma strip_clean_field (part : string) :
  count_char "|" part = 0 -> clean_field (strip part).
Proof.
  intros H. split; [apply strip_idempotent|].
  pose proof (count_strip "|" part). lia.
Qed.

Lemma parse_line_clean (line : string) : Forall clean_rule (parse_line line).
Proof.
  unfold parse_line.
  destruct (_ || _); [constructor|].
  pose proof (split_parts_without_separator "|" (strip line)) as H.
  destruct (split "|" (strip line)) as [|a [|b [|c [|d t]]]];
    try constructor; [|constructor].
  inversion H as [|? ? Ha H1]; subst. inversion H1 as [|? ? Hb H2]; subst.
  inversion H2 as [|? ? Hc _]; subst.
  repeat split; cbn [fst snd]; try apply strip_idempotent;
    match goal with |- count_char _ (strip ?x) = 0 =>
      pose proof (count_strip "|" x); lia end.
Qed.

(** X1.  Every rule read from the rules file has its three fields
    stripped of blanks at both ends and free of the bar.  A regex with an
    alternative cannot be written in the file: in particular the two
    built-in rules are never among the rules read from a file. *)
Theorem loaded_rules_are_clean (src : patterns_source) (rules : list rule) :
  ps_raises src = None ->
  _load_patterns src = inr rules ->
  Forall clean_rule rules /\
  (forall r, In r default_patterns -> ~ In r rules).
Proof.
  unfold _load_patterns, read_patterns. intros -> [= <-].
  assert (H : Forall clean_rule (flat_map parse_line (ps_lines src))).
  { induction (ps_lines src) as [|l ls IH]; [constructor|].
    cbn [flat_map]. apply Forall_app. split; [apply parse_line_clean | exact IH]. }
  split; [exact H|].
  intros r Hd Hin. rewrite Forall_forall in H. specialize (H r Hin).
  destruct H as [[_ Hbar] _].
  simpl in Hd. destruct Hd as [<- | [<- | []]]; discriminate.
Qed.

Lemma loaded_rules_are_clean_witness :
  Forall clean_rule [("MyOrg", "organization/user name", "error")].
Proof.
  exact (proj1 (loaded_rules_are_clean scenario_rules _ eq_refl eq_refl)).
Defined.

(** *** The enumeration *)

Lemma fnmatch_star_ends_with (lit : string) :
  no_wildcard lit = true ->
  forall name, fnmatch (String "*" lit) name = ends_with lit name.
Proof.
  intros Hw. induction name as [|c name IH].
  - rewrite fnmatch_star_empty, (fnmatch_literal lit Hw). simpl.
    now rewrite orb_false_r.
  - rewrite fnmatch_star_step, IH, (fnmatch_literal lit Hw). reflexivity.
Qed.

Lemma rglob_selects_nothing (lit : string) :
  no_wildcard lit = true ->
  forall (node : fsnode) (dir : path),
    all_names (fun name => negb (ends_with lit name)) node = true ->
    rglob (String "*" lit) dir node = [].
Proof.
  intros Hw. fix IH 1. intros [r | entries] dir H; [reflexivity|].
  cbn [rglob]. cbn [all_names] in H.
  induction entries as [|[name child] entries IHe]; [reflexivity|].
  cbn [forallb fst snd] in H.
  apply andb_true_iff in H as [H1 H2]. apply andb_true_iff in H1 as [Hn Hc].
  apply negb_true_iff in Hn.
  specialize (IHe H2). apply app_eq_nil in IHe as [E1 E2].
  cbn [flat_map fst snd].
  rewrite (fnmatch_star_ends_with lit Hw), Hn, E1, E2, (IH child _ Hc).
  reflexivity.
Qed.

(** X2.  When no name in the tree under the template directory ends,
    letter for letter, in [.{md,yaml,yml}], the scan selects no entry: it
    reads no file, adds no finding, sets the count of checked files to 0
    and returns whether the issues were empty before. *)
Theorem ordinary_names_are_never_scanned
    (finditer : string -> string -> exn + list rmatch)
    (tree : fsnode) (c : checker) :
  all_names (fun name => negb (ends_with ".{md,yaml,yml}" name)) tree = true ->
  check_all_files finditer (Some tree) c =
  (inr (List.length (issues c) =? 0)%nat,
   {| template_dir := template_dir c;
      issues := issues c;
      checked_files := 0;
      hardcoded_patterns := hardcoded_patterns c |}).
Proof.
  intros H. unfold check_all_files, glob.
  change (split "/" "**/*.{md,yaml,yml}") with ["**"; "*.{md,yaml,yml}"].
  cbv iota beta.
  assert (E : rglob "*.{md,yaml,yml}" [template_dir c] tree = []).
  { now apply (rglob_selects_nothing ".{md,yaml,yml}"). }
  unfold bind, gets. cbv beta iota zeta. rewrite E. reflexivity.
Qed.

Lemma ordinary_names_are_never_scanned_witness :
  check_all_files literal_finditer (Some ordinary_tree) scenario_checker
  = (inr true, scenario_checker).
Proof.
  exact (ordinary_names_are_never_scanned literal_finditer ordinary_tree
           scenario_checker eq_refl).
Defined.

(** *** The exit status *)

Lemma load_patterns_inr (src : patterns_source) :
  exists rules, _load_patterns src = inr rules.
Proof.
  unfold _load_patterns, read_patterns.
  destruct (ps_raises src) as [[[] m]|]; eexists; reflexivity.
Qed.

(** X3.  When nothing is at the template directory, [check_all_files]
    returns [False] and leaves the checker as it was, and [main] ends
    with the exit status 0, whatever the rules file. *)
Theorem missing_directory_exits_with_zero
    (finditer : string -> string -> exn + list rmatch)
    (dir : string) (src : patterns_source) :
  main finditer dir src None = inr 0%Z /\
  forall c, check_all_files finditer None c = (inr false, c).
Proof.
  split; [|reflexivity].
  unfold main, __init__. destruct (load_patterns_inr src) as [rules ->].
  reflexivity.
Qed.

Lemma error_count_positive (l : list issue) :
  Nat.ltb 0 (List.length (filter (fun i => i_severity i =? "error") l))
  = existsb (fun i => i_severity i =? "error") l.
Proof.
  induction l as [|i l IH]; [reflexivity|]. simpl.
  destruct (i_severity i =? "error"); [reflexivity | exact IH].
Qed.

(** X4.  When the scan ends without raising, the exit status of [main]
    is 1 exactly when some finding has the severity [error], spelled so,
    and 0 otherwise; and [check_all_files] returns [True] only when there
    is no finding at all. *)
Theorem exit_status_is_one_iff_error_finding
    (finditer : string -> string -> exn + list rmatch)
    (dir : string) (src : patterns_source) (fs : option fsnode)
    (c c' : checker) (b : bool) :
  __init__ dir src = inr c ->
  check_all_files finditer fs c = (inr b, c') ->
  main finditer dir src fs =
    inr (if existsb (fun i => i_severity i =? "error") (issues c')
         then 1%Z else 0%Z) /\
  (b = true -> issues c' = []).
Proof.
  intros Hc Hr. unfold main. rewrite Hc, Hr.
  assert (Hb : b = true -> issues c' = []).
  { destruct fs as [tree|]; [|cbn in Hr; injection Hr as <- <-; discriminate].
    unfold check_all_files, bind, gets, ret, set_checked_files, modify in Hr.
    cbv beta iota zeta in Hr.
    destruct (for_each _ _ c) as [[e | u] c1]; [discriminate|].
    cbn in Hr. injection Hr as <- <-. cbn [issues].
    destruct (issues c1); [reflexivity | discriminate]. }
  split; [|exact Hb].
  destruct b.
  - rewrite (Hb eq_refl). reflexivity.
  - cbv zeta. rewrite error_count_positive. now destruct (existsb _ _).
Qed.

Lemma exit_status_is_one_iff_error_finding_witness :
  main literal_finditer "templates" scenario_rules
       (Some (scenario_tree "README.{md,yaml,yml}")) = inr 1%Z.
Proof.
  exact (proj1 (exit_status_is_one_iff_error_finding literal_finditer "templates"
                  scenario_rules (Some (scenario_tree "README.{md,yaml,yml}"))
                  scenario_checker _ false eq_refl eq_refl)).
Defined.

(** *** The rules on a line *)

Lemma with_issues_app (c : checker) (l1 l2 : list issue) :
  with_issues (with_issues c l1) l2 = with_issues c (l1 ++ l2)%list.
Proof. unfold with_issues. simpl. now rewrite app_assoc. Qed.

Lemma no_placeholder_b (line : string) :
  ~ has_placeholder line ->
  existsb (fun placeholder => str_in placeholder line) placeholders = false.
Proof.
  intros H. apply not_true_is_false. intros E. apply H.
  apply existsb_exists in E as [p [Hin Hp]].
  exists p. split; [assumption | now apply str_in_spec].
Qed.

Section RuleLoop.

Variable finditer : string -> string -> exn + list rmatch.
Variables (fp : path) (n : nat) (line : string).

Lemma found_app (l1 l2 : list rule) : line_findings finditer fp n line (l1 ++ l2) = (line_findings finditer fp n line l1 ++ line_findings finditer fp n line l2)%list.
Proof.
  unfold line_findings, rule_findings.
  destruct (_is_in_example_context line 0); [reflexivity|]. apply flat_map_app.
Qed.

Lemma body_accepts (r : rule) (c : checker) :
  (exists ms, finditer (fst (fst r)) line = inr ms) ->
  (rule_step finditer fp n line) r c = (inr tt, with_issues c (line_findings finditer fp n line [r])).
Proof.
  intros [ms E]. destruct r as [[pattern description] severity].
  cbn [fst snd] in E. unfold rule_step, bind, lift, line_findings, rule_findings, matches_of.
  cbn [flat_map fst snd]. rewrite E, check_matches_spec, app_nil_r.
  now destruct (_is_in_example_context line 0).
Qed.

Lemma rules_loop_accepts (rules : list rule) :
  engine_accepts finditer line rules ->
  forall c, for_each rules (rule_step finditer fp n line) c = (inr tt, with_issues c (line_findings finditer fp n line rules)).
Proof.
  unfold engine_accepts. induction 1 as [|r rules Hr _ IH]; intros c.
  - cbn [for_each]. unfold ret, line_findings, rule_findings. cbn [flat_map].
    destruct (_is_in_example_context line 0); now rewrite with_issues_nil.
  - cbn [for_each]. unfold bind at 1. rewrite (body_accepts r c Hr), IH.
    rewrite with_issues_app. change (r :: rules) with ([r] ++ rules)%list.
    now rewrite found_app.
Qed.

Lemma rules_loop_rejects (before after : list rule)
    (pattern description severity : string) (e : exn) :
  engine_accepts finditer line before ->
  finditer pattern line = inl e ->
  forall c,
    for_each (before ++ (pattern, description, severity) :: after)%list (rule_step finditer fp n line) c
    = (inl e, with_issues c (line_findings finditer fp n line before)).
Proof.
  unfold engine_accepts. intros Hb He. induction Hb as [|r rules Hr _ IH]; intros c.
  - cbn [app for_each]. unfold bind at 1. unfold rule_step, bind, lift. rewrite He.
    unfold line_findings, rule_findings. cbn [flat_map].
    destruct (_is_in_example_context line 0); now rewrite with_issues_nil.
  - cbn [app for_each]. unfold bind at 1. rewrite (body_accepts r c Hr), IH.
    rewrite with_issues_app. change (r :: rules) with ([r] ++ rules)%list.
    now rewrite found_app.
Qed.

Lemma rules_loop_in_example_context (rules : list rule) :
  _is_in_example_context line 0 = true ->
  forall c, snd (for_each rules (rule_step finditer fp n line) c) = c.
Proof.
  intros Hctx. induction rules as [|[[pattern description] severity] rules IH];
    intros c; [reflexivity|].
  cbn [for_each]. unfold bind at 1. unfold rule_step at 1. unfold bind at 1, lift.
  destruct (finditer pattern line) as [e | ms]; [reflexivity|].
  rewrite check_matches_spec, Hctx, with_issues_nil. apply IH.
Qed.

Lemma check_line_unfold (c : checker) :
  existsb (fun placeholder => str_in placeholder line) placeholders = false ->
  _check_line finditer fp n line c = for_each (hardcoded_patterns c) (rule_step finditer fp n line) c.
Proof. intros H. unfold _check_line. rewrite H. reflexivity. Qed.

End RuleLoop.

(** X5.  A line whose lowercase holds an example marker gives no
    finding, whatever the rules and whatever the regex engine answers or
    raises: [_check_line] leaves the checker as it was. *)
Theorem example_line_gives_no_finding
    (finditer : string -> string -> exn + list rmatch)
    (fp : path) (n : nat) (line : string) (c : checker) :
  has_marker (lower line) ->
  snd (_check_line finditer fp n line c) = c.
Proof.
  intros Hm.
  assert (Hctx : _is_in_example_context line 0 = true).
  { rewrite comment_clause_is_subsumed. now apply has_marker_b. }
  unfold _check_line.
  destruct (existsb _ placeholders); [reflexivity|].
  unfold bind at 1, gets.
  now apply rules_loop_in_example_context.
Qed.

(** X6.  On a line with no placeholder token and no example marker, when
    every pattern compiles, [_check_line] adds one finding for each match
    of each rule, in the order of the rules and, for one rule, of the
    matches, and ends normally. *)
Theorem findings_follow_rules_then_matches
    (finditer : string -> string -> exn + list rmatch)
    (fp : path) (n : nat) (line : string) (c : checker) :
  ~ has_placeholder line ->
  ~ has_marker (lower line) ->
  engine_accepts finditer line (hardcoded_patterns c) ->
  _check_line finditer fp n line c =
  (inr tt,
   with_issues c (rule_findings finditer fp n line (hardcoded_patterns c))).
Proof.
  intros Hp Hm Hacc.
  assert (Hctx : _is_in_example_context line 0 = false).
  { rewrite comment_clause_is_subsumed. apply not_true_is_false.
    intros E. now apply has_marker_b in E. }
  rewrite check_line_unfold by now apply no_placeholder_b.
  rewrite rules_loop_accepts by assumption. unfold line_findings.
  now rewrite Hctx.
Qed.

(** X7.  On a line with no placeholder token, the first rule whose
    pattern does not compile ends [_check_line] with that exception: the
    findings of the rules before it stay, and the rules after it are not
    applied. *)
Theorem bad_pattern_ends_the_scan
    (finditer : string -> string -> exn + list rmatch)
    (fp : path) (n : nat) (line : string) (c : checker)
    (before after : list rule) (pattern description severity : string)
    (e : exn) :
  ~ has_placeholder line ->
  hardcoded_patterns c = (before ++ (pattern, description, severity) :: after)%list ->
  engine_accepts finditer line before ->
  finditer pattern line = inl e ->
  _check_line finditer fp n line c =
  (inl e,
   with_issues c (if _is_in_example_context line 0 then []
                  else rule_findings finditer fp n line before)).
Proof.
  intros Hp Hrules Hacc He.
  rewrite check_line_unfold by now apply no_placeholder_b.
  rewrite Hrules. now apply rules_loop_rejects.
Qed.

Lemma example_line_gives_no_finding_witness :
  snd (_check_line literal_finditer ["templates"; "README.md"] 2
                   "# e.g. MyOrg is a sample org" scenario_checker)
  = scenario_checker.
Proof.
  apply example_line_gives_no_finding.
  exists "e.g.". split; [simpl; tauto|].
  now exists "# ", " myorg is a sample org".
Defined.

Lemma not_occurs_b (needle hay : string) :
  str_in needle hay = false -> ~ occurs needle hay.
Proof. intros E H. apply str_in_spec in H. congruence. Qed.

Lemma no_placeholder_of_b (line : string) :
  existsb (fun placeholder => str_in placeholder line) placeholders = false ->
  ~ has_placeholder line.
Proof.
  intros E [p [Hin Hocc]].
  assert (H : existsb (fun placeholder => str_in placeholder line) placeholders
              = true).
  { apply existsb_exists. exists p. split; [assumption | now apply str_in_spec]. }
  congruence.
Qed.

Lemma no_marker_of_b (s : string) :
  existsb (fun indicator => str_in indicator s) example_indicators = false ->
  ~ has_marker s.
Proof. intros E H. apply has_marker_b in H. congruence. Qed.

Lemma findings_follow_rules_then_matches_witness :
  _check_line literal_finditer ["templates"; "README.md"] 1
              "Contact MyOrg for details" scenario_checker
  = (inr tt,
     with_issues scenario_checker [scenario_finding "templates/README.md"]).
Proof.
  apply (findings_follow_rules_then_matches literal_finditer
           ["templates"; "README.md"] 1 "Contact MyOrg for details"
           scenario_checker).
  - now apply no_placeholder_of_b.
  - now apply no_marker_of_b.
  - repeat constructor. eexists. reflexivity.
Defined.

Lemma bad_pattern_ends_the_scan_witness :
  let engine := fun pattern line =>
    if pattern =? "(" then inl (Exn ReError "missing ), unterminated subpattern at position 0")
    else literal_finditer pattern line in
  let c := {| template_dir := "templates"; issues := []; checked_files := 0;
              hardcoded_patterns := [("MyOrg", "organization/user name", "error");
                                     ("(", "broken", "error");
                                     ("Contact", "word", "warning")] |} in
  _check_line engine ["templates"; "README.md"] 1 "Contact MyOrg for details" c
  = (inl (Exn ReError "missing ), unterminated subpattern at position 0"),
     with_issues c [scenario_finding "templates/README.md"]).
Proof.
  intros engine c.
  apply (bad_pattern_ends_the_scan engine ["templates"; "README.md"] 1
           "Contact MyOrg for details" c
           [("MyOrg", "organization/user name", "error")]
           [("Contact", "word", "warning")] "(" "broken" "error").
  - now apply no_placeholder_of_b.
  - reflexivity.
  - repeat constructor. eexists. reflexivity.
  - reflexivity.
Defined.

(** *** A file that cannot be read *)

(** X8.  When reading a selected entry raises [UnicodeDecodeError] or an
    [OSError] (a directory selected by the glob is one such entry),
    [_check_file] adds exactly one finding of severity [error], at line 1
    and without context, and ends normally; an exception of another class
    is raised again and no finding is added. *)
Theorem unreadable_file_is_one_error_finding
    (finditer : string -> string -> exn + list rmatch)
    (fp : path) (node : fsnode) (e : exn) (c : checker) :
  read_text fp node = inl e ->
  (exn_cls e = UnicodeDecodeError \/ is_OSError (exn_cls e) = true ->
   _check_file finditer fp node c =
   (inr tt,
    with_issues c [{| i_file := path_str fp;
                      i_line := "1";
                      i_issue := "Could not read file: " ++ exn_str e;
                      i_severity := "error";
                      i_context := None |}])) /\
  (exn_cls e <> UnicodeDecodeError /\ is_OSError (exn_cls e) = false ->
   _check_file finditer fp node c = (inl e, c)).
Proof.
  intros Hr. unfold _check_file. rewrite Hr. split.
  - intros [H | H].
    + rewrite H. reflexivity.
    + destruct (exn_cls e); try discriminate H; reflexivity.
  - intros [H1 H2]. destruct (exn_cls e); try discriminate H2; try reflexivity.
    now contradiction H1.
Qed.

Lemma unreadable_file_is_one_error_finding_witness :
  _check_file literal_finditer ["templates"; "x.{md,yaml,yml}"] (DirNode [])
              scenario_checker
  = (inr tt,
     with_issues scenario_checker
       [{| i_file := "templates/x.{md,yaml,yml}";
           i_line := "1";
           i_issue := "Could not read file: [Errno 21] Is a directory: 'templates/x.{md,yaml,yml}'";
           i_severity := "error";
           i_context := None |}]).
Proof.
  apply (proj1 (unreadable_file_is_one_error_finding literal_finditer
                  ["templates"; "x.{md,yaml,yml}"] (DirNode []) _
                  scenario_checker eq_refl)).
  now right.
Defined.

(** *** What a scan changes *)

Lemma grows_refl (q : issue -> Prop) (c : checker) : grows_by q c c.
Proof.
  repeat split. exists []. split; [now rewrite app_nil_r | constructor].
Qed.

Lemma grows_trans (q : issue -> Prop) (c c1 c2 : checker) :
  grows_by q c c1 -> grows_by q c1 c2 -> grows_by q c c2.
Proof.
  intros [Hd [Hp [l1 [E1 F1]]]] [Hd' [Hp' [l2 [E2 F2]]]].
  repeat split; try congruence.
  exists (l1 ++ l2)%list. split.
  - now rewrite E2, E1, app_assoc.
  - apply Forall_app. now split.
Qed.

Section Growth.

Variable finditer : string -> string -> exn + list rmatch.
Variable rules : list rule.

Lemma steps_still {A} (m : M checker A) :
  (forall c, snd (m c) = c) -> steps rules m.
Proof. intros H c _. rewrite H. apply grows_refl. Qed.

Lemma steps_bind {A B} (m : M checker A) (k : A -> M checker B) :
  steps rules m -> (forall a, steps rules (k a)) -> steps rules (bind m k).
Proof.
  intros Hm Hk c Hc. unfold bind. specialize (Hm c Hc).
  destruct (m c) as [[e | a] c1]; cbn [snd] in *; [assumption|].
  eapply grows_trans; [exact Hm|]. apply Hk.
  destruct Hm as [_ [Hp _]]. congruence.
Qed.

Lemma steps_for_each {A} (l : list A) (body : A -> M checker unit) :
  (forall x, In x l -> steps rules (body x)) -> steps rules (for_each l body).
Proof.
  induction l as [|x l IH]; intros H.
  - now apply steps_still.
  - cbn [for_each]. apply steps_bind.
    + apply H. now left.
    + intros _. apply IH. intros y Hy. apply H. now right.
Qed.

Lemma steps_append (i : issue) :
  known_severity rules i -> steps rules (append_issue i).
Proof.
  intros Hi c _. repeat split. exists [i]. split; [reflexivity|].
  now constructor.
Qed.

Lemma steps_check_line (fp : path) (n : nat) (line : string) :
  steps rules (_check_line finditer fp n line).
Proof.
  unfold _check_line.
  destruct (existsb _ placeholders); [now apply steps_still|].
  intros c Hc. unfold bind at 1, gets. rewrite Hc. revert c Hc.
  apply steps_for_each. intros [[pattern description] severity] Hin.
  apply steps_bind; [now apply steps_still|].
  intros matches. apply steps_for_each. intros m _.
  destruct (_is_in_example_context line (m_start m)); [now apply steps_still|].
  apply steps_append. left. cbn [match_issue i_severity].
  change severity with (snd (pattern, description, severity)).
  now apply in_map.
Qed.

Lemma steps_check_file (fp : path) (node : fsnode) :
  steps rules (_check_file finditer fp node).
Proof.
  unfold _check_file. destruct (read_text fp node) as [e | content].
  - destruct (match exn_cls e with UnicodeDecodeError => true | c => is_OSError c end).
    + apply steps_append. right. now split.
    + now apply steps_still.
  - apply steps_for_each. intros nl _. apply steps_check_line.
Qed.

End Growth.

(** X9.  Whatever the scan meets, and also when it raises, it only adds
    findings at the end of the issues: the issues it started with, the
    rules and the template directory stay, and each added finding either
    has the severity of one of the loaded rules or is the [error] finding,
    without context, of a file that could not be read. *)
Theorem scan_only_adds_findings
    (finditer : string -> string -> exn + list rmatch)
    (fs : option fsnode) (c : checker) :
  grows_by (known_severity (hardcoded_patterns c)) c
           (snd (check_all_files finditer fs c)).
Proof.
  set (rules := hardcoded_patterns c).
  assert (H : steps rules (check_all_files finditer fs)).
  { unfold check_all_files. destruct fs as [tree|]; [|now apply steps_still].
    apply steps_bind; [now apply steps_still|]. intros dir.
    apply steps_bind.
    - apply steps_for_each. intros f _. apply steps_check_file.
    - intros _. apply steps_bind.
      + intros c0 _. repeat split. exists [].
        split; [cbn; now rewrite app_nil_r | constructor].
      + intros _. apply steps_bind; [now apply steps_still|].
        intros found. now apply steps_still. }
  now apply H.
Qed.

End CheckerScan.

(* ================================================================= *)
(** ** More on the configuration validator *)

Module ValidatorPasses.
Import PyStr Py Validator Spec PyStrFacts ValidatorFacts.

Lemma with_errors_nil (st : validator) : with_errors st [] = st.
Proof. destruct st. unfold with_errors. cbn. now rewrite app_nil_r. Qed.

Lemma with_warnings_nil (st : validator) : with_warnings st [] = st.
Proof. destruct st. unfold with_warnings. cbn. now rewrite app_nil_r. Qed.

Lemma with_errors_cons (st : validator) (m : string) (es : list string) :
  with_errors (add_error m st) es = with_errors st (m :: es).
Proof. unfold with_errors, add_error. cbn. now rewrite <- app_assoc. Qed.

Lemma with_errors_app (st : validator) (es es' : list string) :
  with_errors (with_errors st es) es' = with_errors st (es ++ es')%list.
Proof. unfold with_errors. cbn. now rewrite app_assoc. Qed.

Lemma with_warnings_app (st : validator) (ws ws' : list string) :
  with_warnings (with_warnings st ws) ws' = with_warnings st (ws ++ ws')%list.
Proof. unfold with_warnings. cbn. now rewrite app_assoc. Qed.

(** A loop that appends an error for the elements that fail a test on
    the document. *)
Lemma error_loop {A} (cond : value -> A -> bool) (msg : value -> A -> string)
    (l : list A) :
  forall st,
    for_each l (fun x =>
      bind (gets config) (fun cfg =>
        when (cond cfg x) (error (msg cfg x)))) st
    = (inr tt,
       with_errors st (map (msg (config st)) (filter (cond (config st)) l))).
Proof.
  induction l as [|x l IH]; intros st.
  - cbn. now rewrite with_errors_nil.
  - cbn [for_each filter]. unfold bind at 1. unfold bind at 1, gets at 1, when at 1.
    destruct (cond (config st) x).
    + unfold error at 1, modify at 1. rewrite IH. cbn [map].
      now rewrite with_errors_cons.
    + unfold ret at 1. apply IH.
Qed.

Lemma required_pass (st : validator) :
  _validate_required_fields st
  = (inr tt, with_errors st (required_errors (config st))).
Proof.
  exact (error_loop
           (fun cfg field_path => negb (truthy (_get_nested_value cfg field_path)))
           (fun _ field_path => "Required field missing: " ++ field_path)
           _ st).
Qed.

Lemma types_pass (st : validator) :
  _validate_data_types st
  = (inr tt, with_errors st (type_errors (config st))).
Proof.
  unfold _validate_data_types, type_errors. unfold bind at 1.
  match goal with
  | |- context [for_each ?l ?b st] =>
      assert (E : for_each l b st =
                  (inr tt,
                   with_errors st
                     (map (fun field_path =>
                             "Field " ++ field_path
                             ++ " must be a string, got <class '"
                             ++ type_name (_get_nested_value (config st) field_path)
                             ++ "'>")
                          (filter (wrong_type is_str (config st)) l))))
        by exact (error_loop (wrong_type is_str)
                    (fun cfg field_path =>
                       "Field " ++ field_path
                       ++ " must be a string, got <class '"
                       ++ type_name (_get_nested_value cfg field_path) ++ "'>")
                    l st);
      rewrite E; clear E
  end.
  match goal with
  | |- for_each ?l ?b ?s = _ =>
      assert (E : for_each l b s =
                  (inr tt,
                   with_errors s
                     (map (fun field_path =>
                             "Field " ++ field_path
                             ++ " must be a boolean, got <class '"
                             ++ type_name (_get_nested_value (config s) field_path)
                             ++ "'>")
                          (filter (wrong_type is_bool (config s)) l))))
        by exact (error_loop (wrong_type is_bool)
                    (fun cfg field_path =>
                       "Field " ++ field_path
                       ++ " must be a boolean, got <class '"
                       ++ type_name (_get_nested_value cfg field_path) ++ "'>")
                    l s);
      rewrite E; clear E
  end.
  now rewrite with_errors_app.
Qed.

(** *** The passes that only warn *)

Lemma only_warns_still {A} (m : M validator A) :
  (forall st, snd (m st) = st) -> only_warns m.
Proof. intros H st. exists []. now rewrite H, with_warnings_nil. Qed.

Lemma only_warns_bind {A B} (m : M validator A) (k : A -> M validator B) :
  only_warns m -> (forall a, only_warns (k a)) -> only_warns (bind m k).
Proof.
  intros Hm Hk st. unfold bind. destruct (Hm st) as [ws E].
  destruct (m st) as [[e | a] st1]; cbn [snd] in *; [now exists ws|].
  destruct (Hk a st1) as [ws' E']. exists (ws ++ ws')%list.
  now rewrite E', E, with_warnings_app.
Qed.

Lemma only_warns_warn (msg : string) : only_warns (warn msg).
Proof. intros st. now exists [msg]. Qed.

Lemma only_warns_when (b : bool) (m : M validator unit) :
  only_warns m -> only_warns (when b m).
Proof. intros H. destruct b; [exact H | now apply only_warns_still]. Qed.

Lemma only_warns_config_get (key : string) (default : value) :
  only_warns (config_get key default).
Proof. now apply only_warns_still. Qed.

Lemma only_warns_lift {A} (r : exn + A) : only_warns (lift r).
Proof. now apply only_warns_still. Qed.

Ltac only_warns_step :=
  first [ apply only_warns_config_get
        | apply only_warns_lift
        | apply only_warns_warn
        | apply only_warns_when
        | apply only_warns_bind; [|intros ?]
        | match goal with
          | |- only_warns (if ?b then _ else _) => destruct b
          end
        | (apply only_warns_still; intros; reflexivity) ].

Lemma only_warns_platform : only_warns _validate_platform_config.
Proof.
  unfold _validate_platform_config, _validate_azure_devops_config,
    _validate_github_config, _validate_jira_config.
  repeat only_warns_step.
Qed.

Lemma only_warns_language : only_warns _validate_language_config.
Proof.
  unfold _validate_language_config, config_get_lower, _validate_python_config,
    _validate_javascript_config, _validate_java_config, _validate_dotnet_config.
  repeat only_warns_step.
Qed.

Lemma only_warns_tool : only_warns _validate_tool_config.
Proof.
  unfold _validate_tool_config, config_get_lower. repeat only_warns_step.
Qed.

Lemma only_warns_consistency : only_warns _validate_consistency.
Proof. unfold _validate_consistency. repeat only_warns_step. Qed.

Lemma only_warns_warning_passes : only_warns warning_passes.
Proof.
  unfold warning_passes.
  apply only_warns_bind; [apply only_warns_platform | intros _].
  apply only_warns_bind; [apply only_warns_language | intros _].
  apply only_warns_bind; [apply only_warns_tool | intros _].
  apply only_warns_consistency.
Qed.

Lemma load_document (doc : value) (st : validator) :
  _load_config (Loaded doc) st
  = (inr tt, set_config (if truthy doc then doc else VDict []) st).
Proof. reflexivity. Qed.

(** [run_checks] on a document that loads: the two passes that report
    errors, then the four that warn. *)
Lemma run_checks_loaded (doc : value) (st : validator) :
  let cfg := if truthy doc then doc else VDict [] in
  run_checks (Loaded doc) st
  = warning_passes
      (with_errors (set_config cfg st) (required_errors cfg ++ type_errors cfg)%list).
Proof.
  intros cfg. unfold run_checks. unfold bind at 1. rewrite load_document.
  fold cfg. unfold bind at 1. rewrite required_pass.
  unfold bind at 1. rewrite types_pass, with_errors_app. reflexivity.
Qed.

(** X12.  After [validate] on a file that loads, the errors are those
    there before, then those of the required-fields pass, then those of
    the type pass, then at most one message of an aborted run: the four
    later passes add no error.  The warnings there before stay at the
    front, and the document is the one loaded. *)
Theorem errors_come_from_required_and_types (doc : value) (st : validator) :
  let cfg := if truthy doc then doc else VDict [] in
  let st' := snd (validate (Loaded doc) st) in
  config st' = cfg /\
  (exists ws, warnings st' = (warnings st ++ ws)%list) /\
  exists tail,
    errors st' = (errors st ++ required_errors cfg ++ type_errors cfg ++ tail)%list /\
    (tail = [] \/ exists msg, tail = ["Failed to validate config: " ++ msg]).
Proof.
  intros cfg st'. subst st'. unfold validate. rewrite run_checks_loaded. fold cfg.
  set (st2 := with_errors (set_config cfg st)
                          (required_errors cfg ++ type_errors cfg)%list).
  destruct (only_warns_warning_passes st2) as [ws E].
  destruct (warning_passes st2) as [[e | u] st3]; cbn [snd] in *; subst st3.
  - split; [reflexivity|]. split; [now exists ws|].
    exists ["Failed to validate config: " ++ exn_str e]. split.
    + unfold add_error, with_warnings, st2, with_errors. cbn [errors].
      now rewrite <- !app_assoc.
    + right. now exists (exn_str e).
  - split; [reflexivity|]. split; [now exists ws|].
    exists []. split; [|now left].
    unfold with_warnings, st2, with_errors. cbn [errors].
    now rewrite app_nil_r.
Qed.

(** *** Documents on which no pass raises *)

Section Runs.

Variable cfg : list (string * value).


















End Runs.




(** *** Files that do not load, documents that are no mapping *)

(** X14.  When the file is missing, cannot be read or is not valid YAML,
    [validate] returns [False] with exactly one error appended (naming the
    path, or starting with [Invalid YAML syntax] for a YAML error) and
    runs no pass: warnings and document stay as they were. *)
Theorem unloadable_file_is_one_error (st : validator) :
  validate Missing st =
    (false,
     add_error ("Failed to validate config: Configuration file not found: "
                ++ config_path st) st) /\
  (forall msg,
     validate (Raises (Exn YAMLError msg)) st =
     (false,
      add_error ("Failed to validate config: Invalid YAML syntax: " ++ msg) st)) /\
  (forall e,
     exn_cls e <> YAMLError ->
     validate (Raises e) st =
     (false, add_error ("Failed to validate config: " ++ exn_str e) st)).
Proof.
  split; [reflexivity|]. split; [reflexivity|].
  intros [[] msg] H; try reflexivity. now contradiction H.
Qed.

Lemma unloadable_file_is_one_error_witness :
  validate (Raises (Exn PermissionError "[Errno 13] Permission denied"))
           (__init__ "c.yaml")
  = (false,
     outcome "c.yaml"
       ["Failed to validate config: [Errno 13] Permission denied"] []
       (VDict [])).
Proof.
  apply (proj2 (proj2 (unloadable_file_is_one_error (__init__ "c.yaml")))
               (Exn PermissionError "[Errno 13] Permission denied")).
  discriminate.
Defined.

(** X15.  A document that is truthy but no mapping (a list, a string, a
    number) is kept as it is by the load; the four required fields are
    reported missing and the platform pass then raises on [.get], so the
    run ends with these five errors, no warning and the result [False]. *)
Theorem document_that_is_no_mapping_aborts (doc : value) (path : string) :
  truthy doc = true ->
  is_dict doc = false ->
  validate (Loaded doc) (__init__ path) =
  (false,
   outcome path
     ["Required field missing: project.name";
      "Required field missing: project.organization";
      "Required field missing: platforms";
      "Required field missing: language";
      "Failed to validate config: '" ++ type_name doc
      ++ "' object has no attribute 'get'"]
     [] doc).
Proof.
  intros Ht Hd. unfold validate. rewrite run_checks_loaded, Ht.
  destruct doc; try discriminate; reflexivity.
Qed.

Lemma document_that_is_no_mapping_aborts_witness :
  validate (Loaded (VList [VStr "python"; VStr "java"])) (__init__ "c.yaml") =
  (false,
   outcome "c.yaml"
     ["Required field missing: project.name";
      "Required field missing: project.organization";
      "Required field missing: platforms";
      "Required field missing: language";
      "Failed to validate config: 'list' object has no attribute 'get'"]
     [] (VList [VStr "python"; VStr "java"])).
Proof.
  exact (document_that_is_no_mapping_aborts
           (VList [VStr "python"; VStr "java"]) "c.yaml" eq_refl eq_refl).
Defined.

(** *** The two passes that report errors *)

Lemma append_inj_l (a p q : string) : a ++ p = a ++ q -> p = q.
Proof. induction a as [|c a IH]; simpl; intros H; [assumption|]. apply IH. congruence. Qed.

Lemma filter_nil_iff {A} (f : A -> bool) (l : list A) :
  filter f l = [] <-> forall x, In x l -> f x = false.
Proof.
  induction l as [|x l IH]; cbn [filter].
  - split; [intros _ y [] | reflexivity].
  - destruct (f x) eqn:E.
    + split; [discriminate|]. intros H. specialize (H x (or_introl eq_refl)).
      congruence.
    + rewrite IH. split.
      * intros H y [<- | Hy]; [assumption | now apply H].
      * intros H y Hy. apply H. now right.
Qed.

(** X10.  The required-fields pass never raises and changes nothing but
    the errors: it appends, in the fixed order, one message for each of
    the four paths whose value is falsy, which covers a missing key as
    well as a value that is present but [None], [False], 0 or empty. *)
Theorem required_fields_pass_reports_missing_or_falsy (st : validator) :
  _validate_required_fields st
  = (inr tt, with_errors st (required_errors (config st))) /\
  forall field_path,
    In field_path
       ["project.name"; "project.organization"; "platforms"; "language"] ->
    (In ("Required field missing: " ++ field_path)
        (required_errors (config st))
     <-> truthy (_get_nested_value (config st) field_path) = false).
Proof.
  split; [apply required_pass|]. intros field_path Hin.
  unfold required_errors. rewrite in_map_iff. split.
  - intros [q [E Hq]]. apply append_inj_l in E. subst q.
    apply filter_In in Hq as [_ Hq]. now apply negb_true_iff in Hq.
  - intros H. exists field_path. split; [reflexivity|].
    apply filter_In. split; [assumption | now apply negb_true_iff].
Qed.

Lemma required_fields_pass_reports_missing_or_falsy_witness :
  In "Required field missing: platforms"
     (required_errors (VDict (items_with_platforms []))).
Proof.
  apply (proj2 (required_fields_pass_reports_missing_or_falsy
                  (outcome "c.yaml" [] [] (VDict (items_with_platforms []))))
               "platforms").
  - simpl. tauto.
  - reflexivity.
Defined.

(** X11.  The type pass never raises and changes nothing but the errors;
    it reports nothing exactly when each of the eight string paths is
    absent (or null) or a string, and each of the three platform flags is
    absent (or null) or a boolean. *)
Theorem data_types_pass_reports_wrong_types (st : validator) :
  _validate_data_types st
  = (inr tt, with_errors st (type_errors (config st))) /\
  (type_errors (config st) = [] <->
   (forall field_path,
      In field_path
         ["project.name"; "project.organization"; "project.description";
          "language"; "framework"; "tools.cli"; "tools.test_runner";
          "tools.linter"] ->
      let v := _get_nested_value (config st) field_path in
      v = VNone \/ exists s, v = VStr s) /\
   (forall field_path,
      In field_path
         ["platforms.azure_devops"; "platforms.github"; "platforms.jira"] ->
      let v := _get_nested_value (config st) field_path in
      v = VNone \/ exists b, v = VBool b)).
Proof.
  split; [apply types_pass|]. unfold type_errors.
  assert (Hmap : forall (f : string -> string) l, map f l = [] <-> l = []).
  { intros f l. destruct l; split; intros H; try reflexivity; discriminate. }
  split.
  - intros H. apply app_eq_nil in H as [H1 H2].
    apply Hmap in H1, H2. rewrite filter_nil_iff in H1, H2.
    split; intros field_path Hin; cbv zeta.
    + specialize (H1 field_path Hin). unfold wrong_type in H1.
      destruct (_get_nested_value (config st) field_path);
        try discriminate H1; eauto.
    + specialize (H2 field_path Hin). unfold wrong_type in H2.
      destruct (_get_nested_value (config st) field_path);
        try discriminate H2; eauto.
  - intros [H1 H2].
    assert (E1 : filter (wrong_type is_str (config st))
                   ["project.name"; "project.organization";
                    "project.description"; "language"; "framework";
                    "tools.cli"; "tools.test_runner"; "tools.linter"] = []).
    { apply filter_nil_iff. intros p Hp. unfold wrong_type.
      destruct (H1 p Hp) as [-> | [s ->]]; reflexivity. }
    assert (E2 : filter (wrong_type is_bool (config st))
                   ["platforms.azure_devops"; "platforms.github";
                    "platforms.jira"] = []).
    { apply filter_nil_iff. intros p Hp. unfold wrong_type.
      destruct (H2 p Hp) as [-> | [b ->]]; reflexivity. }
    now rewrite E1, E2.
Qed.

Lemma data_types_pass_reports_wrong_types_witness :
  let v := _get_nested_value (VDict complete_items) "tools.cli" in
  v = VNone \/ exists s, v = VStr s.
Proof.
  apply (proj1 (proj1 (proj2 (data_types_pass_reports_wrong_types
                                (outcome "c.yaml" [] [] (VDict complete_items))))
                      eq_refl)).
  simpl. tauto.
Defined.

(** *** Versions *)

Lemma version_check_accepts (accept : Z -> Z -> bool) (v : value) :
  catch_value_or_attribute
    match split_of v "." with
    | inl e => inl e
    | inr parts =>
        match unpack_two_ints (firstn 2 parts) with
        | inl e => inl e
        | inr (major, minor) => inr (accept major minor)
        end
    end = inr true
  <-> exists s a b rest major minor,
        v = VStr s /\ split "." s = a :: b :: rest /\
        py_int a = inr major /\ py_int b = inr minor /\
        accept major minor = true.
Proof.
  split.
  - destruct v; try (cbn; discriminate). cbn [split_of].
    destruct (split "." s) as [|a [|b rest]] eqn:Es; cbn [firstn unpack_two_ints].
    + cbn. discriminate.
    + destruct (py_int a) as [e | major] eqn:Ea; [|cbn; discriminate].
      unfold catch_value_or_attribute.
      now rewrite (py_int_raises_ValueError _ _ Ea).
    + destruct (py_int a) as [e | major] eqn:Ea.
      { unfold catch_value_or_attribute.
        now rewrite (py_int_raises_ValueError _ _ Ea). }
      destruct (py_int b) as [e | minor] eqn:Eb.
      { unfold catch_value_or_attribute.
        now rewrite (py_int_raises_ValueError _ _ Eb). }
      cbn. intros [= H]. now exists s, a, b, rest, major, minor.
  - intros [s [a [b [rest [major [minor [-> [Es [Ea [Eb H]]]]]]]]]].
    cbn [split_of]. rewrite Es. cbn [firstn unpack_two_ints].
    rewrite Ea, Eb. cbn. now rewrite H.
Qed.



(** X17.  The .NET version check accepts exactly the strings whose first
    two dot-separated parts read, by [int], as a major number from 6 to 8
    and a minor number that is not negative. *)
Theorem dotnet_version_accepted_iff (v : value) :
  _is_valid_dotnet_version v = inr true <->
  exists s a b rest major minor,
    v = VStr s /\ split "." s = a :: b :: rest /\
    py_int a = inr major /\ py_int b = inr minor /\
    (6 <= major <= 8)%Z /\ (0 <= minor)%Z.
Proof.
  unfold _is_valid_dotnet_version, dotnet_version_body.
  rewrite (version_check_accepts
             (fun major minor =>
                ((major =? 6)%Z && (0 <=? minor)%Z)
                || ((major =? 7)%Z && (0 <=? minor)%Z)
                || ((major =? 8)%Z && (0 <=? minor)%Z))).
  split.
  - intros [s [a [b [rest [major [minor [Hv [Es [Ea [Eb H]]]]]]]]]].
    exists s, a, b, rest, major, minor. repeat split; try assumption;
      repeat (apply orb_true_iff in H; destruct H as [H | H]);
      apply andb_true_iff in H as [H1 H2];
      apply Z.eqb_eq in H1; apply Z.leb_le in H2; lia.
  - intros [s [a [b [rest [major [minor [Hv [Es [Ea [Eb [Hm H0]]]]]]]]]]].
    exists s, a, b, rest, major, minor. repeat split; try assumption.
    apply Z.leb_le in H0. rewrite H0, !andb_true_r.
    assert (major = 6 \/ major = 7 \/ major = 8)%Z as [-> | [-> | ->]] by lia;
      reflexivity.
Qed.

Lemma dotnet_version_accepted_iff_witness :
  _is_valid_dotnet_version (VStr "8.0") = inr true.
Proof.
  apply (proj2 (dotnet_version_accepted_iff (VStr "8.0"))).
  exists "8.0", "8", "0", [], 8%Z, 0%Z. repeat split; lia.
Defined.

(** *** Language and tools *)

Lemma bind_config_get {B} (key : string) (default : value)
    (k : value -> M validator B) (st : validator) (cfg : list (string * value)) :
  config st = VDict cfg ->
  bind (config_get key default) k st
  = k match lookup key cfg with Some x => x | None => default end st.
Proof.
  intros H. unfold config_get, bind, gets, lift. cbv beta iota. now rewrite H.
Qed.

Lemma bind_config_get_lower {B} (key : string) (k : string -> M validator B)
    (st : validator) (cfg : list (string * value)) (low : string) :
  config st = VDict cfg ->
  lower_of match lookup key cfg with Some x => x | None => VStr "" end
  = inr low ->
  bind (config_get_lower key) k st = k low st.
Proof.
  intros H E. unfold config_get_lower, config_get, bind, gets, lift.
  cbv beta iota. rewrite H. cbn [get]. now rewrite E.
Qed.

Lemma mem_false (s : string) (l : list string) :
  ~ In s l -> mem s l = false.
Proof.
  intros H. unfold mem. apply not_true_is_false. intros E.
  apply existsb_exists in E as [x [Hx Ex]]. apply String.eqb_eq in Ex.
  now subst.
Qed.

(** X18.  For a [language] string whose lowercase is not empty and is
    none of the four supported names (and a [framework] that is a string
    or absent), the language pass appends exactly one warning, which
    quotes the language in lowercase, and runs no language-specific
    check. *)
Theorem unsupported_language_is_one_warning
    (st : validator) (cfg : list (string * value)) (s : string) :
  config st = VDict cfg ->
  lookup "language" cfg = Some (VStr s) ->
  absent_or is_str "framework" cfg = true ->
  lower s <> "" ->
  ~ In (lower s) ["python"; "javascript"; "java"; "dotnet"] ->
  _validate_language_config st =
  (inr tt,
   with_warnings st
     ["Language '" ++ lower s
      ++ "' is not in the list of well-supported languages: "
      ++ "['python', 'javascript', 'java', 'dotnet']"]).
Proof.
  intros Hc Hl Hf Hne Hnot.
  unfold _validate_language_config.
  rewrite (bind_config_get_lower "language" _ st cfg (lower s) Hc)
    by now rewrite Hl.
  unfold absent_or in Hf.
  assert (Hfr : exists f, lower_of match lookup "framework" cfg with
                                   | Some x => x | None => VStr "" end = inr f).
  { destruct (lookup "framework" cfg) as [[]|]; try discriminate; eexists;
      reflexivity. }
  destruct Hfr as [f Hfr].
  rewrite (bind_config_get_lower "framework" _ st cfg f Hc Hfr).
  apply String.eqb_neq in Hne. rewrite Hne, (mem_false _ _ Hnot).
  assert (Hp : (lower s =? "python") = false).
  { apply String.eqb_neq. intros E. apply Hnot. rewrite E. simpl. tauto. }
  assert (Hj : (lower s =? "javascript") = false).
  { apply String.eqb_neq. intros E. apply Hnot. rewrite E. simpl. tauto. }
  assert (Hv : (lower s =? "java") = false).
  { apply String.eqb_neq. intros E. apply Hnot. rewrite E. simpl. tauto. }
  assert (Hd : (lower s =? "dotnet") = false).
  { apply String.eqb_neq. intros E. apply Hnot. rewrite E. simpl. tauto. }
  rewrite Hp, Hj, Hv, Hd. reflexivity.
Qed.

Lemma unsupported_language_is_one_warning_witness :
  let st := outcome "c.yaml" [] []
              (VDict [("language", VStr "Rust"); ("framework", VStr "Axum")]) in
  _validate_language_config st =
  (inr tt,
   with_warnings st
     ["Language 'rust' is not in the list of well-supported languages: ['python', 'javascript', 'java', 'dotnet']"]).
Proof.
  intros st.
  apply (unsupported_language_is_one_warning st
           [("language", VStr "Rust"); ("framework", VStr "Axum")] "Rust");
    try reflexivity; try discriminate.
  simpl. intros [H | [H | [H | [H | []]]]]; discriminate.
Defined.

(** X19.  When the document has no [tools] block, or a [tools] mapping
    without [cli], the tool pass appends the warning on [saz] first, and
    this warning stays also when the pass raises later on. *)
Theorem missing_cli_always_warns
    (st : validator) (cfg : list (string * value)) :
  config st = VDict cfg ->
  (lookup "tools" cfg = None \/
   exists d, lookup "tools" cfg = Some (VDict d) /\ lookup "cli" d = None) ->
  exists ws,
    warnings (snd (_validate_tool_config st))
    = (warnings st ++ saz_warning :: ws)%list.
Proof.
  intros Hc Ht. unfold _validate_tool_config.
  rewrite (bind_config_get _ _ _ st cfg Hc).
  assert (Hcli : exists d, match lookup "tools" cfg with
                           | Some x => x | None => VDict [] end = VDict d
                           /\ lookup "cli" d = None).
  { destruct Ht as [-> | [d [-> Hd]]]; [now exists [] | now exists d]. }
  destruct Hcli as [d [-> Hd]].
  cbn [get]. rewrite Hd. unfold bind at 1, lift at 1.
  cbn [lower_of]. unfold bind at 1, lift at 1.
  cbn [lower String.eqb negb when]. unfold bind at 1, warn at 1, modify at 1.
  match goal with
  | |- context [snd (?rest (add_warning ?m st))] =>
      assert (Hrest : only_warns rest)
        by (unfold config_get_lower; repeat only_warns_step);
      destruct (Hrest (add_warning m st)) as [ws ->]
  end.
  exists ws. unfold with_warnings, add_warning. cbn [warnings].
  now rewrite <- app_assoc.
Qed.

Lemma missing_cli_always_warns_witness :
  exists ws,
    warnings (snd (_validate_tool_config
                     (outcome "c.yaml" [] [] (VDict [("language", VInt 5)]))))
    = saz_warning :: ws.
Proof.
  exact (missing_cli_always_warns
           (outcome "c.yaml" [] [] (VDict [("language", VInt 5)]))
           [("language", VInt 5)] eq_refl (or_introl eq_refl)).
Defined.

(** *** The command line *)

Lemma find_first {A} (f : A -> bool) (l : list A) (x : A) :
  List.find f l = Some x <->
  exists before after,
    l = (before ++ x :: after)%list /\
    Forall (fun y => f y = false) before /\ f x = true.
Proof.
  induction l as [|y l IH]; cbn [List.find].
  - split; [discriminate|]. intros [before [after [E _]]].
    destruct before; discriminate.
  - destruct (f y) eqn:Ey.
    + split.
      * intros [= <-]. exists [], l. repeat split; [constructor | assumption].
      * intros [before [after [E [Hb Hx]]]]. destruct before as [|z before].
        -- cbn in E. congruence.
        -- cbn in E. injection E as <- _. inversion Hb; congruence.
    + rewrite IH. split.
      * intros [before [after [-> [Hb Hx]]]]. exists (y :: before), after.
        repeat split; [now constructor | assumption].
      * intros [before [after [E [Hb Hx]]]]. destruct before as [|z before].
        -- cbn in E. injection E as <- _. congruence.
        -- cbn in E. injection E as <- ->. inversion Hb; subst.
           now exists before, after.
Qed.

(** X20.  [main] ends with the exit status 0 exactly when [validate]
    returns [True] on the path it selects: the given path when something
    is there, else the first of the four fixed paths at which something
    is.  The status is 0 or 1, and it is 1 when nothing is at any of
    these paths. *)
Theorem main_validates_the_selected_path
    (disk : string -> config_file) (config_path : string) :
  (main disk config_path = 0%Z <->
   exists chosen,
     selected disk config_path chosen /\
     fst (validate (disk chosen) (__init__ chosen)) = true) /\
  (main disk config_path = 0%Z \/ main disk config_path = 1%Z) /\
  ((forall p, In p (config_path :: possible_paths) -> disk p = Missing) ->
   main disk config_path = 1%Z).
Proof.
  unfold main, selected.
  destruct (path_exists disk config_path) eqn:Ep.
  - cbv zeta. repeat split.
    + intros H. exists config_path. split; [now left|].
      destruct (fst (validate _ _)); [reflexivity | discriminate].
    + intros [chosen [[[_ ->] | [H _]] Hv]]; [now rewrite Hv | discriminate].
    + destruct (fst (validate _ _)); [now left | now right].
    + intros H. specialize (H config_path (or_introl eq_refl)).
      unfold path_exists in Ep. rewrite H in Ep. discriminate.
  - destruct (List.find (path_exists disk) possible_paths) as [q|] eqn:Ef;
      cbv zeta; repeat split.
    + intros H. exists q. split.
      * right. split; [reflexivity|]. now apply find_first.
      * destruct (fst (validate _ _)); [reflexivity | discriminate].
    + intros [chosen [[[H _] | [_ Hsel]] Hv]]; [discriminate|].
      apply find_first in Hsel. rewrite Ef in Hsel. injection Hsel as ->.
      now rewrite Hv.
    + destruct (fst (validate _ _)); [now left | now right].
    + intros H. apply find_some in Ef as [Hin Hq].
      specialize (H q (or_intror Hin)). unfold path_exists in Hq.
      rewrite H in Hq. discriminate.
    + discriminate.
    + intros [chosen [[[H _] | [_ Hsel]] _]]; [discriminate|].
      apply find_first in Hsel. congruence.
    + now right.
Qed.

Lemma main_validates_the_selected_path_witness :
  main disk_with_fallback "settings/project.yaml" = 0%Z.
Proof.
  apply (proj1 (main_validates_the_selected_path disk_with_fallback
                  "settings/project.yaml")).
  exists "project-config.yaml". split; [|reflexivity].
  right. split; [reflexivity|].
  exists [".github/project-config.yaml"],
         [".github/project-config.yml"; "project-config.yml"].
  repeat split. now constructor.
Defined.

End ValidatorPasses.
